(** * ClassPlus video URL decoder API: the request handlers of [app.py]

    A shallow embedding of the four Flask route handlers of [src/app.py]
    ([decode_video_url], [batch_decode_urls], [validate_token] and
    [decode_video_url_simple]) together with the properties the
    specification states about them.

    The handlers call two collaborators that live outside [app.py]:
    [utils.classplus_client.ClassPlusClient] and
    [utils.decoder.ClassPlusDecoder].  They are kept abstract, as two
    interfaces whose operations may read and change the outside world (the
    clock, the issuing service) and may raise.  Every call a handler makes
    on them is recorded in a trace, so that statements such as "decode_url is
    never invoked" are statements about that trace.

    Not modelled: logging, the rate limiter wrapped around each route (it
    runs before the handler body and answers 429 on its own), and the
    serialisation performed by [jsonify] (a response body is kept as the
    Python value handed to it). *)

From Stdlib Require Import List String Ascii ZArith Bool Lia.
From Stdlib Require QArith.
Import ListNotations.
Open Scope string_scope.
Open Scope list_scope.

Set Warnings "-register-all".

(** ** Python values *)

(** What [request.get_json()] can yield, what the collaborators exchange with
    the handlers, and what [jsonify] receives.  A [dict] keeps its items in
    insertion order, hence the association list. *)
Inductive json : Type :=
| JNull
| JBool (b : bool)
| JInt (n : Z)
| JFloat (q : QArith_base.Q)
| JStr (s : string)
| JList (items : list json)
| JObj (fields : list (string * json)).

(** An exception object: its class and the text [str(e)] gives. *)
Record exn : Type := Exception { exn_class : string; exn_msg : string }.

Inductive outcome (A : Type) : Type :=
| Ret (a : A)
| Raise (e : exn).
Arguments Ret {A} a.
Arguments Raise {A} e.

(** Python truth value testing, as used by [if not x]. *)
Definition truthy (v : json) : bool :=
  match v with
  | JNull => false
  | JBool b => b
  | JInt n => negb (Z.eqb n 0)
  | JFloat q => negb (QArith_base.Qeq_bool q (QArith_base.Qmake 0 1))
  | JStr s => negb (String.eqb s "")
  | JList items => match items with [] => false | _ :: _ => true end
  | JObj fields => match fields with [] => false | _ :: _ => true end
  end.

Definition type_name (v : json) : string :=
  match v with
  | JNull => "NoneType"
  | JBool _ => "bool"
  | JInt _ => "int"
  | JFloat _ => "float"
  | JStr _ => "str"
  | JList _ => "list"
  | JObj _ => "dict"
  end.

Fixpoint lookup {A : Type} (key : string) (items : list (string * A)) : option A :=
  match items with
  | [] => None
  | (k, v) :: rest => if String.eqb k key then Some v else lookup key rest
  end.

(** [v.get(key, default)]: only a dict has the method. *)
Definition dict_get_default (v : json) (key : string) (default : json) : outcome json :=
  match v with
  | JObj fields =>
      Ret (match lookup key fields with Some x => x | None => default end)
  | _ =>
      Raise (Exception "AttributeError"
               ("'" ++ type_name v ++ "' object has no attribute 'get'")%string)
  end.

(** [v.get(key)] *)
Definition dict_get (v : json) (key : string) : outcome json :=
  dict_get_default v key JNull.

(** [isinstance(v, list)] *)
Definition isinstance_list (v : json) : bool :=
  match v with JList _ => true | _ => false end.

Definition not_supported (v : json) (what : string) : exn :=
  Exception "TypeError" ("'" ++ type_name v ++ "' " ++ what)%string.

(** [len(v)] *)
Definition len (v : json) : outcome json :=
  match v with
  | JList items => Ret (JInt (Z.of_nat (List.length items)))
  | JObj fields => Ret (JInt (Z.of_nat (List.length fields)))
  | JStr s => Ret (JInt (Z.of_nat (String.length s)))
  | _ => Raise (not_supported v "has no len()")
  end.

(** The values [for x in v] goes through. *)
Definition iterate (v : json) : outcome (list json) :=
  match v with
  | JList items => Ret items
  | JObj fields => Ret (map (fun kv => JStr (fst kv)) fields)
  | JStr s => Ret (map (fun c => JStr (String c "")) (list_ascii_of_string s))
  | _ => Raise (not_supported v "object is not iterable")
  end.

(** [str(e)] *)
Definition str (e : exn) : string := exn_msg e.

(** ** The HTTP boundary *)

(** The part of [flask.request] the handlers read: the value (or the
    exception) of [request.get_json()], and the query parameters behind
    [request.args]. *)
Record Request : Type := {
  get_json : outcome json;
  args : list (string * string)
}.

(** [request.args.get(key)] *)
Definition args_get (request : Request) (key : string) : json :=
  match lookup key (args request) with
  | Some s => JStr s
  | None => JNull
  end.

(** What a route returns: [jsonify(body)] is status 200, [jsonify(body), n] is
    status [n]. *)
Record response : Type := { body : json; status : Z }.

Definition jsonify (fields : list (string * json)) : response :=
  {| body := JObj fields; status := 200 |}.

Definition with_status (r : response) (code : Z) : response :=
  {| body := body r; status := code |}.

(** ** The collaborators *)

(** A call on a collaborator, and the record of one such call. *)
Inductive call : Type :=
| ValidateToken (token : json)
| GetTokenInfo (token : json)
| DecodeUrl (encrypted_url token : json)
| GeneratePlayableUrl (url token : json)
| GetTimestamp.

Definition event : Type := call * outcome json.
Definition trace : Type := list event.

(** [utils.classplus_client.ClassPlusClient] *)
Module ClassPlusClient.
Record t (world : Type) : Type := {
  validate_token : json -> world -> outcome json * world;
  get_token_info : json -> world -> outcome json * world
}.
Arguments validate_token {world} _ _ _.
Arguments get_token_info {world} _ _ _.
End ClassPlusClient.

(** [utils.decoder.ClassPlusDecoder] *)
Module ClassPlusDecoder.
Record t (world : Type) : Type := {
  decode_url : json -> json -> world -> outcome json * world;
  generate_playable_url : json -> json -> world -> outcome json * world;
  get_timestamp : world -> outcome json * world
}.
Arguments decode_url {world} _ _ _ _.
Arguments generate_playable_url {world} _ _ _ _.
Arguments get_timestamp {world} _ _.
End ClassPlusDecoder.

(** ** Handler computations *)

(** A computation runs in a world, ends with a value or an exception, leaves
    a world behind and has made the listed calls, oldest first. *)
Definition M (world A : Type) : Type := world -> outcome A * world * trace.

Definition ret {world A : Type} (a : A) : M world A :=
  fun w => (Ret a, w, []).

Definition bind {world A B : Type} (m : M world A) (k : A -> M world B) : M world B :=
  fun w =>
    match m w with
    | (Ret a, w1, t1) =>
        match k a w1 with
        | (r, w2, t2) => (r, w2, t1 ++ t2)
        end
    | (Raise e, w1, t1) => (Raise e, w1, t1)
    end.

(** A pure Python expression that may raise. *)
Definition lift {world A : Type} (o : outcome A) : M world A :=
  fun w => (o, w, []).

(** [try: m  except Exception as e: h e] *)
Definition try_except {world A : Type} (m : M world A) (h : exn -> M world A) : M world A :=
  fun w =>
    match m w with
    | (Ret a, w1, t1) => (Ret a, w1, t1)
    | (Raise e, w1, t1) =>
        match h e w1 with
        | (r, w2, t2) => (r, w2, t1 ++ t2)
        end
    end.

Notation "x <- m ;; k" := (bind m (fun x => k))
  (at level 61, m at next level, right associativity).

(** ** app.py *)

Section App.

Context {world : Type}.
Variable classplus_client : ClassPlusClient.t world.
Variable decoder : ClassPlusDecoder.t world.
(** [app.debug] *)
Variable debug : bool.

Definition perform (c : call) : M world json :=
  fun w =>
    match
      match c with
      | ValidateToken token =>
          ClassPlusClient.validate_token classplus_client token w
      | GetTokenInfo token =>
          ClassPlusClient.get_token_info classplus_client token w
      | DecodeUrl encrypted_url token =>
          ClassPlusDecoder.decode_url decoder encrypted_url token w
      | GeneratePlayableUrl url token =>
          ClassPlusDecoder.generate_playable_url decoder url token w
      | GetTimestamp =>
          ClassPlusDecoder.get_timestamp decoder w
      end
    with
    | (r, w') => (r, w', [(c, r)])
    end.

(** The body every route gives to an exception it did not expect. *)
Definition internal_error (e : exn) : response :=
  with_status
    (jsonify [("error", JStr "Internal server error");
              ("code", JStr "INTERNAL_ERROR");
              ("details", if debug then JStr (str e) else JNull)])
    500.

(** [POST /api/decode] *)
Definition decode_video_url (request : Request) : M world response :=
  try_except
    (data <- lift (get_json request) ;;
     if negb (truthy data) then
       ret (with_status
              (jsonify [("error", JStr "Invalid JSON payload");
                        ("code", JStr "INVALID_JSON")]) 400)
     else
       token <- lift (dict_get data "token") ;;
       encrypted_url <- lift (dict_get data "encrypted_url") ;;
       video_id <- lift (dict_get data "video_id") ;;
       if negb (truthy token) then
         ret (with_status
                (jsonify [("error", JStr "Token is required");
                          ("code", JStr "MISSING_TOKEN")]) 400)
       else if negb (truthy encrypted_url) then
         ret (with_status
                (jsonify [("error", JStr "Encrypted URL is required");
                          ("code", JStr "MISSING_URL")]) 400)
       else
         valid <- perform (ValidateToken token) ;;
         if negb (truthy valid) then
           ret (with_status
                  (jsonify [("error", JStr "Invalid or expired token");
                            ("code", JStr "INVALID_TOKEN")]) 401)
         else
           decoded_url <- perform (DecodeUrl encrypted_url token) ;;
           if negb (truthy decoded_url) then
             ret (with_status
                    (jsonify [("error", JStr "Failed to decode URL");
                              ("code", JStr "DECODE_FAILED")]) 400)
           else
             playable_url <- perform (GeneratePlayableUrl decoded_url token) ;;
             ret (jsonify [("status", JStr "ok");
                           ("success", JBool true);
                           ("url", playable_url);
                           ("decoded_url", decoded_url);
                           ("video_id", video_id)]))
    (fun e => ret (internal_error e)).

(** One turn of the [for url_data in urls] loop of [batch_decode_urls]: the
    entry it appends to [results], or the exception that leaves the loop. *)
Definition batch_item (token url_data : json) : M world json :=
  try_except
    (encrypted_url <- lift (dict_get url_data "encrypted_url") ;;
     video_id <- lift (dict_get url_data "video_id") ;;
     if negb (truthy encrypted_url) then
       ret (JObj [("video_id", video_id);
                  ("success", JBool false);
                  ("error", JStr "Missing encrypted_url")])
     else
       decoded_url <- perform (DecodeUrl encrypted_url token) ;;
       if truthy decoded_url then
         playable_url <- perform (GeneratePlayableUrl decoded_url token) ;;
         ret (JObj [("video_id", video_id);
                    ("success", JBool true);
                    ("video_url", playable_url);
                    ("decoded_url", decoded_url)])
       else
         ret (JObj [("video_id", video_id);
                    ("success", JBool false);
                    ("error", JStr "Failed to decode URL")]))
    (fun e =>
       video_id <- lift (dict_get url_data "video_id") ;;
       ret (JObj [("video_id", video_id);
                  ("success", JBool false);
                  ("error", JStr (str e))])).

(** The loop itself, [results] being the list built so far. *)
Fixpoint batch_loop (token : json) (urls results : list json) : M world (list json) :=
  match urls with
  | [] => ret results
  | url_data :: rest =>
      entry <- batch_item token url_data ;;
      batch_loop token rest (results ++ [entry])
  end.

(** [[r for r in results if r.get('success')]] *)
Fixpoint successful_results (results : list json) : outcome (list json) :=
  match results with
  | [] => Ret []
  | r :: rest =>
      match dict_get r "success" with
      | Raise e => Raise e
      | Ret flag =>
          match successful_results rest with
          | Raise e => Raise e
          | Ret kept => Ret (if truthy flag then r :: kept else kept)
          end
      end
  end.

(** [POST /api/batch-decode] *)
Definition batch_decode_urls (request : Request) : M world response :=
  try_except
    (data <- lift (get_json request) ;;
     if negb (truthy data) then
       ret (with_status
              (jsonify [("error", JStr "Invalid JSON payload");
                        ("code", JStr "INVALID_JSON")]) 400)
     else
       token <- lift (dict_get data "token") ;;
       urls <- lift (dict_get_default data "urls" (JList [])) ;;
       if negb (truthy token) then
         ret (with_status
                (jsonify [("error", JStr "Token is required");
                          ("code", JStr "MISSING_TOKEN")]) 400)
       else if negb (truthy urls) || negb (isinstance_list urls) then
         ret (with_status
                (jsonify [("error", JStr "URLs array is required");
                          ("code", JStr "MISSING_URLS")]) 400)
       else
         valid <- perform (ValidateToken token) ;;
         if negb (truthy valid) then
           ret (with_status
                  (jsonify [("error", JStr "Invalid or expired token");
                            ("code", JStr "INVALID_TOKEN")]) 401)
         else
           url_items <- lift (iterate urls) ;;
           results <- batch_loop token url_items [] ;;
           total <- lift (len urls) ;;
           kept <- lift (successful_results results) ;;
           successful <- lift (len (JList kept)) ;;
           timestamp <- perform GetTimestamp ;;
           ret (jsonify [("success", JBool true);
                         ("results", JList results);
                         ("total", total);
                         ("successful", successful);
                         ("timestamp", timestamp)]))
    (fun e => ret (internal_error e)).

(** [POST /api/validate-token] *)
Definition validate_token (request : Request) : M world response :=
  try_except
    (data <- lift (get_json request) ;;
     if negb (truthy data) then
       ret (with_status
              (jsonify [("error", JStr "Invalid JSON payload");
                        ("code", JStr "INVALID_JSON")]) 400)
     else
       token <- lift (dict_get data "token") ;;
       if negb (truthy token) then
         ret (with_status
                (jsonify [("error", JStr "Token is required");
                          ("code", JStr "MISSING_TOKEN")]) 400)
       else
         is_valid <- perform (ValidateToken token) ;;
         if truthy is_valid then
           token_info <- perform (GetTokenInfo token) ;;
           timestamp <- perform GetTimestamp ;;
           ret (jsonify [("valid", JBool true);
                         ("token_info", token_info);
                         ("timestamp", timestamp)])
         else
           timestamp <- perform GetTimestamp ;;
           ret (with_status
                  (jsonify [("valid", JBool false);
                            ("error", JStr "Invalid or expired token");
                            ("timestamp", timestamp)]) 401))
    (fun e => ret (internal_error e)).

(** [GET /api] *)
Definition decode_video_url_simple (request : Request) : M world response :=
  try_except
    (let video_url := args_get request "url" in
     let token := args_get request "token" in
     if negb (truthy video_url) then
       ret (with_status
              (jsonify [("status", JStr "error");
                        ("success", JBool false);
                        ("error", JStr "URL parameter is required")]) 400)
     else if negb (truthy token) then
       ret (with_status
              (jsonify [("status", JStr "error");
                        ("success", JBool false);
                        ("error", JStr "Token parameter is required")]) 400)
     else
       valid <- perform (ValidateToken token) ;;
       if negb (truthy valid) then
         ret (with_status
                (jsonify [("status", JStr "error");
                          ("success", JBool false);
                          ("error", JStr "Invalid or expired token")]) 401)
       else
         playable_url <- perform (GeneratePlayableUrl video_url token) ;;
         ret (jsonify [("status", JStr "ok");
                       ("success", JBool true);
                       ("url", playable_url)]))
    (fun _ =>
       ret (with_status
              (jsonify [("status", JStr "error");
                        ("success", JBool false);
                        ("error", JStr "Internal server error")]) 500)).

End App.

(** The URL map of [app]: the four routes with a handler of their own. *)
Inductive route : Type :=
| ApiDecode
| ApiBatchDecode
| ApiValidateToken
| ApiSimple.

Definition handle {world : Type} (classplus_client : ClassPlusClient.t world)
    (decoder : ClassPlusDecoder.t world) (debug : bool) (rt : route)
    : Request -> M world response :=
  match rt with
  | ApiDecode => decode_video_url classplus_client decoder debug
  | ApiBatchDecode => batch_decode_urls classplus_client decoder debug
  | ApiValidateToken => validate_token classplus_client decoder debug
  | ApiSimple => decode_video_url_simple classplus_client decoder
  end.

(** ** Vocabulary of the properties *)

Definition decode_or_sign (c : call) : bool :=
  match c with
  | DecodeUrl _ _ | GeneratePlayableUrl _ _ => true
  | _ => false
  end.

Definition is_decode (c : call) : bool :=
  match c with
  | DecodeUrl _ _ => true
  | _ => false
  end.

Definition is_object (v : json) : bool :=
  match v with
  | JObj _ => true
  | _ => false
  end.

(** A field of a response body or of a result entry: [None] when the value is
    not a dict or lacks the key. *)
Definition field (key : string) (v : json) : option json :=
  match v with
  | JObj fields => lookup key fields
  | _ => None
  end.

(** The [success] flag of a result entry, read as [r.get('success')] reads
    it. *)
Definition succeeded (r : json) : bool :=
  match field "success" r with
  | Some flag => truthy flag
  | None => false
  end.

(** A call of the loop of [batch_decode_urls] made under [token]. *)
Definition under_token (token : json) (ev : event) : Prop :=
  match fst ev with
  | DecodeUrl _ t | GeneratePlayableUrl _ t => t = token
  | _ => False
  end.

(** [entry] is what one turn of the batch loop yields for [url_data], started
    in some world. *)
Definition reports {world : Type} (classplus_client : ClassPlusClient.t world)
    (decoder : ClassPlusDecoder.t world) (token url_data entry : json) : Prop :=
  exists w w' tr,
    batch_item classplus_client decoder token url_data w = (Ret entry, w', tr).

(** The batch request passes the checks of [batch_decode_urls] and its token
    is accepted: the payload is a dict, [token] is its true-valued token,
    [items] its non-empty list of urls, and [validate_token] answers with a
    true value, leaving the world [w1]. *)
Definition accepted {world : Type} (classplus_client : ClassPlusClient.t world)
    (request : Request) (w : world) (token : json) (items : list json)
    (w1 : world) : Prop :=
  exists fields v,
    get_json request = Ret (JObj fields)
    /\ lookup "token" fields = Some token
    /\ truthy token = true
    /\ lookup "urls" fields = Some (JList items)
    /\ items <> []
    /\ ClassPlusClient.validate_token classplus_client token w = (Ret v, w1)
    /\ truthy v = true.

(** [get_timestamp] gives the time whenever asked. *)
Definition clock_answers {world : Type} (decoder : ClassPlusDecoder.t world) : Prop :=
  forall w, exists timestamp w',
    ClassPlusDecoder.get_timestamp decoder w = (Ret timestamp, w').

(** *** Client input errors

    First in the words of the specification (section 7): a token or an
    encrypted URL is in order when it is a non-empty string, a batch entry
    when it is a dict with such an encrypted URL. *)
Definition well_formed_text (v : json) : bool :=
  match v with
  | JStr s => negb (String.eqb s "")
  | _ => false
  end.

Definition text_field (key : string) (fields : list (string * json)) : bool :=
  match lookup key fields with
  | Some v => well_formed_text v
  | None => false
  end.

Definition well_formed_entry (url_data : json) : bool :=
  match url_data with
  | JObj fields => text_field "encrypted_url" fields
  | _ => false
  end.

Definition client_input_error (rt : route) (request : Request) : bool :=
  match rt, get_json request with
  | ApiDecode, Ret (JObj fields) =>
      negb (text_field "token" fields) || negb (text_field "encrypted_url" fields)
  | ApiBatchDecode, Ret (JObj fields) =>
      negb (text_field "token" fields)
      || match lookup "urls" fields with
         | Some (JList items) => negb (forallb well_formed_entry items)
         | _ => true
         end
  | _, _ => false
  end.

(** The sentence of the specification at one request: an input error is
    answered with a status of the 400 class and no call on the
    collaborators. *)
Definition input_error_contract {world : Type}
    (classplus_client : ClassPlusClient.t world)
    (decoder : ClassPlusDecoder.t world) (debug : bool)
    (rt : route) (request : Request) (w : world) : Prop :=
  client_input_error rt request = true ->
  exists resp w',
    handle classplus_client decoder debug rt request w = (Ret resp, w', [])
    /\ (400 <= status resp < 500)%Z.

(** Then as the handlers test it: what they turn away before the first call
    on a collaborator is a value that is not true ([None], an empty string,
    an empty list or dict, zero, [False]), and for [urls] also a value that
    is not a list. *)
Definition get_or_none (key : string) (fields : list (string * json)) : json :=
  match lookup key fields with
  | Some v => v
  | None => JNull
  end.

Definition rejected_early (rt : route) (request : Request) : bool :=
  match rt with
  | ApiSimple =>
      negb (truthy (args_get request "url"))
      || negb (truthy (args_get request "token"))
  | _ =>
      match get_json request with
      | Ret (JObj fields) =>
          negb (truthy (JObj fields))
          || negb (truthy (get_or_none "token" fields))
          || match rt with
             | ApiDecode => negb (truthy (get_or_none "encrypted_url" fields))
             | ApiBatchDecode =>
                 match lookup "urls" fields with
                 | Some urls => negb (truthy urls) || negb (isinstance_list urls)
                 | None => true
                 end
             | _ => false
             end
      | Ret data => negb (truthy data)
      | Raise _ => false
      end
  end.

(** ** A test double

    A client and a decoder to run the handlers on: the world is the clock;
    one token is live; an encrypted URL is its plaintext behind the prefix
    [enc:]; signing appends the token. *)
Module Fixture.

Definition live_token : string := "live-token".

Definition client : ClassPlusClient.t Z := {|
  ClassPlusClient.validate_token := fun token now =>
    (Ret (JBool match token with
                | JStr s => String.eqb s live_token
                | _ => false
                end), now);
  ClassPlusClient.get_token_info := fun token now =>
    (Ret (JObj [("subject", JStr "user-1"); ("expiry", JInt (now + 3600))]), now)
|}.

Definition decoder : ClassPlusDecoder.t Z := {|
  ClassPlusDecoder.decode_url := fun encrypted_url token now =>
    (match encrypted_url with
     | JStr s =>
         if String.prefix "enc:" s
         then Ret (JStr (String.substring 4 (String.length s - 4) s))
         else Ret (JStr "")
     | _ => Raise (Exception "TypeError" "a bytes-like object is required")
     end, now);
  ClassPlusDecoder.generate_playable_url := fun url token now =>
    (match url, token with
     | JStr u, JStr t => Ret (JStr (u ++ "?token=" ++ t)%string)
     | _, _ => Raise (Exception "TypeError" "can only concatenate str")
     end, now);
  ClassPlusDecoder.get_timestamp := fun now => (Ret (JInt now), (now + 1)%Z)
|}.

Definition post (data : json) : Request :=
  {| get_json := Ret data; args := [] |}.

Definition get (query : list (string * string)) : Request :=
  {| get_json := Raise (Exception "UnsupportedMediaType" "415 Unsupported Media Type");
     args := query |}.

Definition item (encrypted_url : string) (video_id : Z) : json :=
  JObj [("encrypted_url", JStr encrypted_url); ("video_id", JInt video_id)].

Definition single (token : json) (encrypted_url : string) : Request :=
  post (JObj [("token", token);
              ("encrypted_url", JStr encrypted_url);
              ("video_id", JInt 1)]).

Definition expired : Request :=
  single (JStr "expired-token-X") "enc:https://cdn.example/v1.m3u8".

Definition undecodable : Request :=
  single (JStr live_token) "not-an-encoded-url".

Definition numeric_token : Request :=
  single (JInt 12345) "enc:https://cdn.example/v1.m3u8".

Definition no_token : Request :=
  post (JObj [("encrypted_url", JStr "enc:https://cdn.example/v1.m3u8")]).

Definition check_token : Request :=
  post (JObj [("token", JStr live_token)]).

Definition simple : Request :=
  get [("url", "https://cdn.example/v1.m3u8"); ("token", live_token)].

Definition batch (items : list json) : Request :=
  post (JObj [("token", JStr live_token); ("urls", JList items)]).

(** Five urls: three decode, one is not a product of the scheme, one has
    no [encrypted_url]. *)
Definition three_of_five : list json :=
  [item "enc:https://cdn.example/v1.m3u8" 1;
   item "enc:https://cdn.example/v2.m3u8" 2;
   item "not-an-encoded-url" 3;
   JObj [("video_id", JInt 4)];
   item "enc:https://cdn.example/v5.m3u8" 5].

(** Two urls, neither decodes. *)
Definition none_of_two : list json :=
  [item "not-an-encoded-url" 1; JObj []].

(** One url, without [encrypted_url]. *)
Definition entry_without_url : list json :=
  [JObj [("video_id", JInt 4)]].

(** Two urls, the second a bare string where a dict is expected. *)
Definition bare_string_entry : list json :=
  [item "enc:https://cdn.example/v1.m3u8" 1; JStr "oops"].

End Fixture.

(** ** The rest of app.py *)

(** The [docs] dict of [api_docs]. *)
Definition docs : list (string * json) :=
  [("title", JStr "ClassPlus Video URL Decoder API");
   ("version", JStr "1.0.0");
   ("endpoints",
    JObj
      [("/api/decode",
        JObj
          [("method", JStr "POST");
           ("description", JStr "Decode a single encrypted video URL");
           ("payload",
            JObj
              [("token", JStr "string (required) - ClassPlus authentication token");
               ("encrypted_url", JStr "string (required) - Base64 encoded video URL");
               ("video_id", JStr "string (optional) - Video identifier")]);
           ("response",
            JObj
              [("success", JStr "boolean");
               ("video_url", JStr "string - Playable video URL");
               ("decoded_url", JStr "string - Decoded URL");
               ("video_id", JStr "string");
               ("timestamp", JStr "string")])]);
       ("/api/batch-decode",
        JObj
          [("method", JStr "POST");
           ("description", JStr "Decode multiple encrypted video URLs");
           ("payload",
            JObj
              [("token", JStr "string (required) - ClassPlus authentication token");
               ("urls", JStr "array (required) - Array of URL objects")])]);
       ("/api/validate-token",
        JObj
          [("method", JStr "POST");
           ("description", JStr "Validate ClassPlus token");
           ("payload",
            JObj
              [("token", JStr "string (required) - ClassPlus authentication token")])])]);
   ("error_codes",
    JObj
      [("INVALID_JSON", JStr "Request payload is not valid JSON");
       ("MISSING_TOKEN", JStr "Authentication token is missing");
       ("MISSING_URL", JStr "Encrypted URL is missing");
       ("INVALID_TOKEN", JStr "Token is invalid or expired");
       ("DECODE_FAILED", JStr "Failed to decode the encrypted URL");
       ("INTERNAL_ERROR", JStr "Server internal error")])].

(** [GET /api/docs] *)
Definition api_docs : response := jsonify docs.

(** [@app.errorhandler(429)], [description] being [e.description]. *)
Definition ratelimit_handler (description : string) : response :=
  with_status
    (jsonify [("error", JStr "Rate limit exceeded");
              ("code", JStr "RATE_LIMIT_EXCEEDED");
              ("description", JStr description)])
    429.

(** [@app.errorhandler(404)] *)
Definition not_found : response :=
  with_status
    (jsonify [("error", JStr "Endpoint not found");
              ("code", JStr "NOT_FOUND")])
    404.

(** *** Vocabulary for the rest *)

(** The keys of a dict, in order. *)
Definition keys (v : json) : list string :=
  match v with
  | JObj fields => map fst fields
  | _ => []
  end.

(** A path of keys into nested dicts. *)
Fixpoint at_path (path : list string) (v : json) : option json :=
  match path with
  | [] => Some v
  | key :: rest =>
      match field key v with
      | Some inner => at_path rest inner
      | None => None
      end
  end.

(** The error codes [api_docs] lists, and the response fields it gives for
    an endpoint. *)
Definition documented_codes : list string :=
  match at_path ["error_codes"] (body api_docs) with
  | Some codes => keys codes
  | None => []
  end.

Definition documented_fields (endpoint : string) : list string :=
  match at_path ["endpoints"; endpoint; "response"] (body api_docs) with
  | Some fields => keys fields
  | None => []
  end.

(** The token a request presents to a route, [None] when there is none to
    read. *)
Definition presented_token (rt : route) (request : Request) : json :=
  match rt with
  | ApiSimple => args_get request "token"
  | _ =>
      match get_json request with
      | Ret (JObj fields) => get_or_none "token" fields
      | _ => JNull
      end
  end.

(** The url entries a batch request submits: the list under [urls], none
    when the payload has no such list. *)
Definition submitted (request : Request) : list json :=
  match get_json request with
  | Ret (JObj fields) =>
      match lookup "urls" fields with
      | Some (JList items) => items
      | _ => []
      end
  | _ => []
  end.

Definition is_validate (c : call) : bool :=
  match c with
  | ValidateToken _ => true
  | _ => false
  end.

Definition is_sign (c : call) : bool :=
  match c with
  | GeneratePlayableUrl _ _ => true
  | _ => false
  end.

(** How many calls of a kind a trace holds, and how many of them returned. *)
Definition calls (kind : call -> bool) (tr : trace) : nat :=
  List.length (filter (fun ev : event => kind (fst ev)) tr).

Definition returned (ev : event) : bool :=
  match snd ev with
  | Ret _ => true
  | Raise _ => false
  end.

Definition returned_calls (kind : call -> bool) (tr : trace) : nat :=
  List.length (filter (fun ev : event => kind (fst ev) && returned ev) tr).

(** The flag at the top of a response body that says the request went
    through: [valid] on the validation route, [success] elsewhere. *)
Definition top_flag (rt : route) (resp : response) : option json :=
  match rt with
  | ApiValidateToken => field "valid" (body resp)
  | _ => field "success" (body resp)
  end.

(** Two more requests for the test double: a token the client rejects, and
    a single url that decodes. *)
Definition rejected_check : Request :=
  {| get_json := Ret (JObj [("token", JStr "expired-token-X")]); args := [] |}.

Definition decodable : Request :=
  Fixture.single (JStr Fixture.live_token) "enc:https://cdn.example/v1.m3u8".

(** Three urls, the second with a number for [encrypted_url], on which the
    decoder of the test double raises. *)
Definition raising_entry : list json :=
  [Fixture.item "enc:https://cdn.example/v1.m3u8" 1;
   JObj [("encrypted_url", JInt 3); ("video_id", JInt 2)];
   Fixture.item "enc:https://cdn.example/v3.m3u8" 3].

(** The AttributeError of [v.get] on a value that is not a dict. *)
Definition no_get (v : json) : exn :=
  Exception "AttributeError"
    ("'" ++ type_name v ++ "' object has no attribute 'get'")%string.

(** The two reports of the batch loop for a url that did not go through:
    without [encrypted_url], and after an exception. *)
Definition missing_url_report (fields : list (string * json)) : json :=
  JObj [("video_id", get_or_none "video_id" fields);
        ("success", JBool false);
        ("error", JStr "Missing encrypted_url")].

Definition error_report (video_id : json) (e : exn) : json :=
  JObj [("video_id", video_id);
        ("success", JBool false);
        ("error", JStr (str e))].

(** A decoder like that of the test double, with a clock that is down. *)
Definition stopped_clock : ClassPlusDecoder.t Z := {|
  ClassPlusDecoder.decode_url := ClassPlusDecoder.decode_url Fixture.decoder;
  ClassPlusDecoder.generate_playable_url :=
    ClassPlusDecoder.generate_playable_url Fixture.decoder;
  ClassPlusDecoder.get_timestamp := fun now =>
    (Raise (Exception "OSError" "clock unavailable"), now)
|}.

(** ** Proof automation *)

(** Case analysis on the innermost scrutinee of the goal that is not itself a
    case analysis; run to the end it walks every path through a handler. *)
Ltac crunch_step :=
  match goal with
  | |- context [match ?x with _ => _ end] =>
      lazymatch x with
      | context [match _ with _ => _ end] => fail
      | _ => destruct x eqn:?
      end
  end.

Ltac crunch :=
  cbv beta iota;
  repeat (crunch_step; cbn [fst snd] in *; cbv beta iota).

Ltac unfold_handler :=
  unfold handle, decode_video_url, batch_decode_urls, validate_token,
    decode_video_url_simple, batch_item, try_except, bind, lift, ret, perform,
    dict_get, dict_get_default.

Ltac unfold_handler_in H :=
  unfold handle, decode_video_url, batch_decode_urls, validate_token,
    decode_video_url_simple, batch_item, try_except, bind, lift, ret, perform,
    dict_get, dict_get_default in H.

(** Membership in an explicit trace, one event at a time. *)
Ltac in_trace :=
  repeat match goal with
         | H : In _ (_ :: _) |- _ => destruct H as [H | H]
         | H : In _ [] |- _ => destruct H
         | H : In _ (_ ++ _) |- _ => apply in_app_or in H; destruct H as [H | H]
         | H : (_, _) = (_, _) |- _ => inversion H; clear H; subst
         | H : (_, _) = ?ev |- _ => is_var ev; subst ev
         end.

(** The tests a path went through, as facts about [truthy]. *)
Ltac tests :=
  repeat match goal with
         | H : negb _ = true |- _ => apply negb_true_iff in H
         | H : negb _ = false |- _ => apply negb_false_iff in H
         | H : _ || _ = false |- _ => apply orb_false_iff in H; destruct H
         | H : under_token _ _ |- _ => cbn in H; try contradiction; subst
         end.

(** ** Properties *)

Section Properties.

Context {world : Type}.
Variable classplus_client : ClassPlusClient.t world.
Variable decoder : ClassPlusDecoder.t world.
Variable debug : bool.

(** *** The batch loop *)

Lemma batch_item_object :
  forall token fields w, exists entry w' tr,
    batch_item classplus_client decoder token (JObj fields) w = (Ret entry, w', tr)
    /\ is_object entry = true
    /\ field "video_id" entry
       = Some (match lookup "video_id" fields with Some v => v | None => JNull end)
    /\ Forall (under_token token) tr.
Proof.
  intros. unfold_handler. crunch.
  all: do 3 eexists; (split; [reflexivity|]).
  all: repeat split; repeat constructor.
Qed.

Lemma batch_item_not_object :
  forall token url_data w,
    is_object url_data = false ->
    exists e, batch_item classplus_client decoder token url_data w = (Raise e, w, []).
Proof.
  intros token url_data w Hobj.
  destruct url_data; try discriminate Hobj; eexists; reflexivity.
Qed.

Lemma batch_item_trace :
  forall token url_data w r w' tr,
    batch_item classplus_client decoder token url_data w = (r, w', tr) ->
    Forall (under_token token) tr.
Proof.
  intros token url_data w r w' tr Hrun.
  destruct (is_object url_data) eqn:Hobj.
  - destruct url_data; try discriminate Hobj.
    destruct (batch_item_object token fields w) as (entry & w1 & t1 & Heq & _ & _ & Htr).
    rewrite Heq in Hrun. inversion Hrun; subst. exact Htr.
  - destruct (batch_item_not_object token url_data w Hobj) as (e & Heq).
    rewrite Heq in Hrun. inversion Hrun; subst. constructor.
Qed.

Lemma batch_item_ret_object :
  forall token url_data w entry w' tr,
    batch_item classplus_client decoder token url_data w = (Ret entry, w', tr) ->
    is_object url_data = true /\ is_object entry = true.
Proof.
  intros token url_data w entry w' tr Hrun.
  destruct (is_object url_data) eqn:Hobj.
  - split; [reflexivity|].
    destruct url_data; try discriminate Hobj.
    destruct (batch_item_object token fields w) as (entry1 & w1 & t1 & Heq & Hent & _).
    rewrite Heq in Hrun. inversion Hrun; subst. exact Hent.
  - destruct (batch_item_not_object token url_data w Hobj) as (e & Heq).
    rewrite Heq in Hrun. discriminate Hrun.
Qed.

Lemma batch_loop_step :
  forall token url_data rest results w,
    batch_loop classplus_client decoder token (url_data :: rest) results w =
    match batch_item classplus_client decoder token url_data w with
    | (Ret entry, w1, t1) =>
        match batch_loop classplus_client decoder token rest (results ++ [entry]) w1 with
        | (r, w2, t2) => (r, w2, t1 ++ t2)
        end
    | (Raise e, w1, t1) => (Raise e, w1, t1)
    end.
Proof. reflexivity. Qed.

Lemma batch_loop_trace :
  forall token urls results w r w' tr,
    batch_loop classplus_client decoder token urls results w = (r, w', tr) ->
    Forall (under_token token) tr.
Proof.
  intros token urls. induction urls as [|url_data rest IH]; intros results w r w' tr Hrun.
  - inversion Hrun; subst. constructor.
  - rewrite batch_loop_step in Hrun.
    destruct (batch_item classplus_client decoder token url_data w)
      as [[[entry|e] w1] t1] eqn:Hitem.
    + destruct (batch_loop classplus_client decoder token rest (results ++ [entry]) w1)
        as [[r2 w2] t2] eqn:Hrest.
      inversion Hrun; subst.
      apply Forall_app. split.
      * eapply batch_item_trace; eassumption.
      * eapply IH; eassumption.
    + inversion Hrun; subst. eapply batch_item_trace; eassumption.
Qed.

(** A loop that runs to its end has appended one entry per item, each the
    report of its own item, and every item was a dict. *)
Lemma batch_loop_ret :
  forall token urls results w out w' tr,
    batch_loop classplus_client decoder token urls results w = (Ret out, w', tr) ->
    exists entries,
      out = results ++ entries
      /\ Forall2 (reports classplus_client decoder token) urls entries
      /\ forallb is_object urls = true
      /\ forallb is_object entries = true.
Proof.
  intros token urls. induction urls as [|url_data rest IH]; intros results w out w' tr Hrun.
  - inversion Hrun; subst. exists []. rewrite app_nil_r. repeat split. constructor.
  - rewrite batch_loop_step in Hrun.
    destruct (batch_item classplus_client decoder token url_data w)
      as [[[entry|e] w1] t1] eqn:Hitem; [|discriminate Hrun].
    destruct (batch_loop classplus_client decoder token rest (results ++ [entry]) w1)
      as [[r2 w2] t2] eqn:Hrest.
    inversion Hrun; subst.
    destruct (IH _ _ _ _ _ Hrest) as (entries & Hout & Hrep & Hurls & Hents).
    destruct (batch_item_ret_object _ _ _ _ _ _ Hitem) as [Hu He].
    exists (entry :: entries). repeat split.
    + rewrite Hout, <- app_assoc. reflexivity.
    + constructor; [|exact Hrep]. exists w, w1, t1. exact Hitem.
    + cbn. rewrite Hu, Hurls. reflexivity.
    + cbn. rewrite He, Hents. reflexivity.
Qed.

(** Over dicts the loop always runs to its end. *)
Lemma batch_loop_objects :
  forall token urls results w,
    forallb is_object urls = true ->
    exists out w' tr,
      batch_loop classplus_client decoder token urls results w = (Ret out, w', tr).
Proof.
  intros token urls. induction urls as [|url_data rest IH]; intros results w Hobj.
  - do 3 eexists. reflexivity.
  - cbn in Hobj. apply andb_true_iff in Hobj. destruct Hobj as [Hu Hrest].
    destruct url_data; try discriminate Hu.
    destruct (batch_item_object token fields w) as (entry & w1 & t1 & Heq & _).
    destruct (IH (results ++ [entry]) w1 Hrest) as (out & w2 & t2 & Hloop).
    rewrite batch_loop_step, Heq, Hloop. do 3 eexists. reflexivity.
Qed.

(** An item that is not a dict ends the loop with an exception, whatever the
    items before and after it. *)
Lemma batch_loop_not_object :
  forall token urls results w,
    forallb is_object urls = false ->
    exists e w' tr,
      batch_loop classplus_client decoder token urls results w = (Raise e, w', tr).
Proof.
  intros token urls results w Hobj.
  destruct (batch_loop classplus_client decoder token urls results w)
    as [[[out|e] w'] tr] eqn:Hrun.
  - apply batch_loop_ret in Hrun. destruct Hrun as (_ & _ & _ & Hurls & _).
    congruence.
  - do 3 eexists. reflexivity.
Qed.

Lemma successful_results_objects :
  forall results,
    forallb is_object results = true ->
    successful_results results = Ret (filter succeeded results).
Proof.
  induction results as [|r rest IH]; intros Hobj; [reflexivity|].
  cbn in Hobj. apply andb_true_iff in Hobj. destruct Hobj as [Hr Hrest].
  destruct r; try discriminate Hr.
  cbn. rewrite (IH Hrest). unfold succeeded. cbn.
  destruct (lookup "success" fields); reflexivity.
Qed.

(** Every call of a finished loop was made under the loop's token. *)
Ltac loop_events :=
  repeat match goal with
         | Hloop : batch_loop _ _ _ _ _ _ = (_, _, ?t), H : In ?ev ?t |- _ =>
             let U := fresh "U" in
             pose proof (proj1 (Forall_forall _ _)
                           (batch_loop_trace _ _ _ _ _ _ _ Hloop) ev H) as U;
             clear H;
             try (is_var ev; destruct ev as [[] ?]);
             cbn in U; try contradiction; subst
         end.

Lemma reports_video_id :
  forall token url_data entry,
    reports classplus_client decoder token url_data entry ->
    dict_get entry "video_id" = dict_get url_data "video_id".
Proof.
  intros token url_data entry (w & w' & tr & Hrun).
  destruct (batch_item_ret_object _ _ _ _ _ _ Hrun) as [Hu _].
  destruct url_data; try discriminate Hu.
  destruct (batch_item_object token fields w) as (entry1 & w1 & t1 & Heq & Hent & Hid & _).
  rewrite Heq in Hrun. inversion Hrun; subst.
  destruct entry; try discriminate Hent.
  cbn in Hid |- *. rewrite Hid. reflexivity.
Qed.

(** *** The routes *)

(** C1.  On [/api/decode] and [/api/batch-decode] the handler always answers;
    when [validate_token] has returned a value that is not true, the answer
    is 401 and the trace holds no [decode_url] and no
    [generate_playable_url] call.  Conversely every decode or signing call
    made under a token sits in a trace that starts with the validation of
    that very token, answered with a true value: no playable URL comes from
    a token that failed validation. *)
Theorem failed_validation_never_decodes :
  forall rt request w,
    rt = ApiDecode \/ rt = ApiBatchDecode ->
    exists resp w' tr,
      handle classplus_client decoder debug rt request w = (Ret resp, w', tr)
      /\ (forall token v,
            In (ValidateToken token, Ret v) tr -> truthy v = false ->
            status resp = 401%Z
            /\ forall ev, In ev tr -> decode_or_sign (fst ev) = false)
      /\ (forall ev token,
            In ev tr -> under_token token ev ->
            exists v rest,
              tr = (ValidateToken token, Ret v) :: rest /\ truthy v = true).
Proof.
  intros rt request w [-> | ->].
  - unfold_handler. crunch.
    all: do 3 eexists; (split; [reflexivity|]).
    all: cbn [app]; split; intros.
    all: in_trace; tests; try congruence.
    all: try (split; [reflexivity|]; intros; in_trace; reflexivity).
    all: try (do 2 eexists; split; [reflexivity|assumption]).
  - unfold_handler. crunch.
    all: do 3 eexists; (split; [reflexivity|]).
    all: cbn [app]; split; intros.
    all: in_trace; loop_events; tests; try congruence.
    all: try (split; [reflexivity|]; intros; in_trace; reflexivity).
    all: try (do 2 eexists; split; [reflexivity|assumption]).
Qed.

(** C2.  On every route, a call of [get_token_info] on a token comes right
    after a call of [validate_token] on the same token that returned a true
    value, and that validation opens the trace; when [validate_token] has
    returned a value that is not true for a token, no [get_token_info] call
    on it is in the trace. *)
Theorem token_info_only_after_validation :
  forall rt request w,
    exists resp w' tr,
      handle classplus_client decoder debug rt request w = (Ret resp, w', tr)
      /\ (forall token r,
            In (GetTokenInfo token, r) tr ->
            exists v rest,
              tr = (ValidateToken token, Ret v) :: (GetTokenInfo token, r) :: rest
              /\ truthy v = true)
      /\ (forall token v r,
            In (ValidateToken token, Ret v) tr -> truthy v = false ->
            ~ In (GetTokenInfo token, r) tr).
Proof.
  intros rt request w. destruct rt.
  all: unfold_handler; crunch.
  all: do 3 eexists; (split; [reflexivity|]).
  all: cbn [app]; split; [intros|intros ? ? ? ? ? ?].
  all: in_trace; loop_events; tests; try congruence.
  all: do 2 eexists; split; [reflexivity|assumption].
Qed.

(** C4.  [/api/decode] always answers, and when [decode_url] has returned its
    failure sentinel (a value that is not true: [None], the empty string) the
    answer is status 400 with the code DECODE_FAILED, not the 500 of
    [internal_error]. *)
Theorem decode_failure_is_400 :
  forall request w,
    exists resp w' tr,
      decode_video_url classplus_client decoder debug request w = (Ret resp, w', tr)
      /\ (forall encrypted_url token v,
            In (DecodeUrl encrypted_url token, Ret v) tr -> truthy v = false ->
            resp = with_status
                     (jsonify [("error", JStr "Failed to decode URL");
                               ("code", JStr "DECODE_FAILED")]) 400).
Proof.
  intros request w. unfold_handler. crunch.
  all: do 3 eexists; (split; [reflexivity|]).
  all: cbn [app]; intros.
  all: in_trace; tests; congruence.
Qed.

(** C7.  [GET /api] never calls [decode_url].  With both parameters present
    and the token accepted, its calls are the validation followed by
    [generate_playable_url] on the [url] parameter as it came, and what that
    call returns is the [url] of the response. *)
Theorem simple_route_signs_without_decoding :
  forall request w,
    exists resp w' tr,
      decode_video_url_simple classplus_client decoder request w = (Ret resp, w', tr)
      /\ (forall ev, In ev tr -> is_decode (fst ev) = false)
      /\ (forall v w1,
            truthy (args_get request "url") = true ->
            truthy (args_get request "token") = true ->
            ClassPlusClient.validate_token classplus_client
              (args_get request "token") w = (Ret v, w1) ->
            truthy v = true ->
            exists r,
              ClassPlusDecoder.generate_playable_url decoder
                (args_get request "url") (args_get request "token") w1 = (r, w')
              /\ tr = [(ValidateToken (args_get request "token"), Ret v);
                       (GeneratePlayableUrl (args_get request "url")
                          (args_get request "token"), r)]
              /\ (forall playable_url,
                    r = Ret playable_url ->
                    resp = jsonify [("status", JStr "ok");
                                    ("success", JBool true);
                                    ("url", playable_url)])).
Proof.
  intros request w. unfold_handler. crunch.
  all: do 3 eexists; (split; [reflexivity|]).
  all: cbn [app]; split; [intros; in_trace; reflexivity|].
  all: intros; tests; try congruence.
  all: match goal with
       | H : (_, _) = (_, _) |- _ => inversion H; subst
       end.
  all: eexists; split; [eassumption|]; split; [reflexivity|].
  all: intros; congruence.
Qed.

(** The batch route once the payload has passed the checks and the token has
    been accepted: the loop, then the envelope. *)
Lemma batch_decode_urls_accepted :
  forall request fields token items v w w1,
    get_json request = Ret (JObj fields) ->
    lookup "token" fields = Some token ->
    truthy token = true ->
    lookup "urls" fields = Some (JList items) ->
    items <> [] ->
    ClassPlusClient.validate_token classplus_client token w = (Ret v, w1) ->
    truthy v = true ->
    batch_decode_urls classplus_client decoder debug request w =
    match batch_loop classplus_client decoder token items [] w1 with
    | (Ret results, w2, t) =>
        match ClassPlusDecoder.get_timestamp decoder w2 with
        | (Ret timestamp, w3) =>
            (Ret (jsonify [("success", JBool true);
                           ("results", JList results);
                           ("total", JInt (Z.of_nat (List.length items)));
                           ("successful",
                            JInt (Z.of_nat (List.length (filter succeeded results))));
                           ("timestamp", timestamp)]),
             w3,
             (ValidateToken token, Ret v) :: t ++ [(GetTimestamp, Ret timestamp)])
        | (Raise e, w3) =>
            (Ret (internal_error debug e), w3,
             (ValidateToken token, Ret v) :: t ++ [(GetTimestamp, Raise e)])
        end
    | (Raise e, w2, t) =>
        (Ret (internal_error debug e), w2, (ValidateToken token, Ret v) :: t)
    end.
Proof.
  intros request fields token items v w w1 Hjson Htoken Htruthy Hurls Hitems Hvalid Hv.
  assert (Hdata : truthy (JObj fields) = true).
  { destruct fields; [discriminate Htoken | reflexivity]. }
  assert (Hlist : truthy (JList items) = true).
  { destruct items; [contradiction | reflexivity]. }
  unfold_handler.
  rewrite Hjson, Hdata. cbn [negb]. rewrite Htoken, Hurls. cbv beta iota.
  rewrite Htruthy, Hlist. cbn [negb orb isinstance_list fst snd]. cbv beta iota.
  rewrite Hvalid. cbv beta iota. rewrite Hv. cbn [negb iterate len fst snd app].
  cbv beta iota.
  destruct (batch_loop classplus_client decoder token items [] w1)
    as [[[results|e] w2] t] eqn:Hloop; cbv beta iota.
  - destruct (batch_loop_ret _ _ _ _ _ _ _ Hloop) as (entries & Hout & _ & _ & Hobj).
    cbn [app] in Hout. subst entries.
    rewrite (successful_results_objects _ Hobj). cbv beta iota.
    destruct (ClassPlusDecoder.get_timestamp decoder w2) as [[timestamp|e] w3];
      cbv beta iota; cbn [app]; rewrite ?app_nil_r; reflexivity.
  - cbn [app]. rewrite ?app_nil_r. reflexivity.
Qed.

(** C6.  For a batch request that passes the checks, with an accepted token,
    dicts as url entries and a clock that answers: the response carries the
    results, one report per url, [total] is the number of submitted urls and
    [successful] the number of results whose [success] flag is true. *)
Theorem batch_counts :
  forall request w token items w1,
    accepted classplus_client request w token items w1 ->
    forallb is_object items = true ->
    clock_answers decoder ->
    exists resp w' tr results,
      batch_decode_urls classplus_client decoder debug request w = (Ret resp, w', tr)
      /\ field "results" (body resp) = Some (JList results)
      /\ Forall2 (reports classplus_client decoder token) items results
      /\ field "total" (body resp) = Some (JInt (Z.of_nat (List.length items)))
      /\ field "successful" (body resp)
         = Some (JInt (Z.of_nat (List.length (filter succeeded results)))).
Proof.
  intros request w token items w1
    (fields & v & Hjson & Htoken & Htruthy & Hurls & Hitems & Hvalid & Hv) Hobj Hclock.
  rewrite (batch_decode_urls_accepted _ _ _ _ _ _ _
             Hjson Htoken Htruthy Hurls Hitems Hvalid Hv).
  destruct (batch_loop_objects token items [] w1 Hobj) as (results & w2 & t & Hloop).
  rewrite Hloop.
  destruct (batch_loop_ret _ _ _ _ _ _ _ Hloop) as (entries & Hout & Hrep & _ & _).
  cbn [app] in Hout. subst entries.
  destruct (Hclock w2) as (timestamp & w3 & Htime). rewrite Htime.
  do 3 eexists. exists results. split; [reflexivity|].
  repeat split. exact Hrep.
Qed.

(** C9.  For a batch request that passes the checks, with an accepted token,
    dicts as url entries and a clock that answers, the response has status
    200 and [success] true at the top, whatever became of the items. *)
Theorem batch_envelope_succeeds :
  forall request w token items w1,
    accepted classplus_client request w token items w1 ->
    forallb is_object items = true ->
    clock_answers decoder ->
    exists resp w' tr,
      batch_decode_urls classplus_client decoder debug request w = (Ret resp, w', tr)
      /\ status resp = 200%Z
      /\ field "success" (body resp) = Some (JBool true).
Proof.
  intros request w token items w1
    (fields & v & Hjson & Htoken & Htruthy & Hurls & Hitems & Hvalid & Hv) Hobj Hclock.
  rewrite (batch_decode_urls_accepted _ _ _ _ _ _ _
             Hjson Htoken Htruthy Hurls Hitems Hvalid Hv).
  destruct (batch_loop_objects token items [] w1 Hobj) as (results & w2 & t & Hloop).
  rewrite Hloop.
  destruct (Hclock w2) as (timestamp & w3 & Htime). rewrite Htime.
  do 3 eexists. repeat split.
Qed.

(** C5, as the code behaves.  A url entry that is not a dict raises in the
    [try] block of its turn and again in the [except] block, at
    [url_data.get('video_id')]; the second exception leaves the loop, and the
    request is answered 500 without any result, whatever the other entries
    are. *)
Theorem batch_aborts_on_non_dict_entry :
  forall request w token items w1,
    accepted classplus_client request w token items w1 ->
    forallb is_object items = false ->
    exists e w' tr,
      batch_decode_urls classplus_client decoder debug request w
      = (Ret (internal_error debug e), w', tr)
      /\ status (internal_error debug e) = 500%Z
      /\ field "results" (body (internal_error debug e)) = None.
Proof.
  intros request w token items w1
    (fields & v & Hjson & Htoken & Htruthy & Hurls & Hitems & Hvalid & Hv) Hobj.
  rewrite (batch_decode_urls_accepted _ _ _ _ _ _ _
             Hjson Htoken Htruthy Hurls Hitems Hvalid Hv).
  destruct (batch_loop_not_object token items [] w1 Hobj) as (e & w2 & t & Hloop).
  rewrite Hloop. do 3 eexists. repeat split.
Qed.

(** C10.  Whenever the batch response carries a [results] list, the payload
    was a dict with a list under [urls], the results are as many as the urls,
    and the result at each position is the report of the url at that
    position, with the [video_id] of that url. *)
Theorem batch_results_align :
  forall request w resp w' tr results,
    batch_decode_urls classplus_client decoder debug request w = (Ret resp, w', tr) ->
    field "results" (body resp) = Some (JList results) ->
    exists fields token items,
      get_json request = Ret (JObj fields)
      /\ lookup "token" fields = Some token
      /\ lookup "urls" fields = Some (JList items)
      /\ List.length results = List.length items
      /\ Forall2 (reports classplus_client decoder token) items results
      /\ Forall2 (fun url_data entry =>
                    dict_get entry "video_id" = dict_get url_data "video_id")
           items results.
Proof.
  intros request w resp w' tr results Hrun Hres.
  unfold_handler_in Hrun. revert Hrun. crunch.
  all: intros Hrun; inversion Hrun; subst; clear Hrun.
  all: try discriminate Hres.
  all: tests; try discriminate.
  all: match goal with
       | H : isinstance_list ?u = true |- _ => destruct u; try discriminate H
       end.
  all: match goal with
       | H : iterate _ = Ret _ |- _ => cbn in H; inversion H; subst; clear H
       end.
  all: match goal with
       | H : batch_loop _ _ _ _ _ _ = _ |- _ =>
           destruct (batch_loop_ret _ _ _ _ _ _ _ H) as (entries & Hout & Hrep & _ & _)
       end.
  all: cbn [app] in Hout; subst entries.
  all: cbn in Hres; inversion Hres; subst; clear Hres.
  all: match goal with
       | Ht : lookup "token" ?f = Some ?t, Hu : lookup "urls" ?f = Some (JList ?l) |- _ =>
           exists f, t, l
       end.
  all: split; [reflexivity|].
  all: repeat (split; [assumption|]).
  all: split; [symmetry; eapply Forall2_length; eassumption|].
  all: split; [assumption|].
  all: eapply Forall2_impl; [|eassumption]; apply reports_video_id.
Qed.

End Properties.

(** ** Client input errors, as the handlers treat them *)

Section InputErrors.

Context {world : Type}.
Variable classplus_client : ClassPlusClient.t world.
Variable decoder : ClassPlusDecoder.t world.
Variable debug : bool.

Lemma batch_item_missing_url :
  forall token fields w,
    truthy (get_or_none "encrypted_url" fields) = false ->
    batch_item classplus_client decoder token (JObj fields) w
    = (Ret (missing_url_report fields), w, []).
Proof.
  intros token fields w Hurl. unfold missing_url_report, get_or_none in *.
  unfold_handler.
  destruct (lookup "encrypted_url" fields); rewrite Hurl; reflexivity.
Qed.

(** C3, amended.  What is missing or not true (payload, token, encrypted
    URL, query parameter, or a [urls] value that is missing, empty or not a
    list) is answered 400 before any call on the collaborators.  A token and
    an encrypted URL that are true go to the collaborators as they are,
    strings or not: the first call of [/api/decode] and of
    [/api/batch-decode] is [validate_token] on the token of the payload, and
    [decode_url] receives the encrypted URL of the payload.  The batch
    entries are looked at only after that validation: a rejected token is
    answered 401 with no other call, whatever the entries; and in an accepted
    batch an entry that is a dict without a true [encrypted_url] is reported
    as a failed item, in a 200 response, without any call for it. *)
Theorem input_errors_rejected_before_core :
  (forall rt request w,
      rejected_early rt request = true ->
      exists resp,
        handle classplus_client decoder debug rt request w = (Ret resp, w, [])
        /\ status resp = 400%Z)
  /\ (forall request fields w,
        get_json request = Ret (JObj fields) ->
        truthy (get_or_none "token" fields) = true ->
        truthy (get_or_none "encrypted_url" fields) = true ->
        exists resp w' rest,
          decode_video_url classplus_client decoder debug request w
          = (Ret resp, w',
             (ValidateToken (get_or_none "token" fields),
              fst (ClassPlusClient.validate_token classplus_client
                     (get_or_none "token" fields) w)) :: rest)
          /\ (forall v,
                fst (ClassPlusClient.validate_token classplus_client
                       (get_or_none "token" fields) w) = Ret v ->
                truthy v = true ->
                exists r rest',
                  rest = (DecodeUrl (get_or_none "encrypted_url" fields)
                            (get_or_none "token" fields), r) :: rest'))
  /\ (forall request fields items w,
        get_json request = Ret (JObj fields) ->
        truthy (get_or_none "token" fields) = true ->
        lookup "urls" fields = Some (JList items) ->
        items <> [] ->
        exists resp w' rest,
          batch_decode_urls classplus_client decoder debug request w
          = (Ret resp, w',
             (ValidateToken (get_or_none "token" fields),
              fst (ClassPlusClient.validate_token classplus_client
                     (get_or_none "token" fields) w)) :: rest)
          /\ (forall v,
                fst (ClassPlusClient.validate_token classplus_client
                       (get_or_none "token" fields) w) = Ret v ->
                truthy v = false ->
                rest = [] /\ status resp = 401%Z))
  /\ (forall token fields w,
        (truthy (get_or_none "encrypted_url" fields) = false ->
         batch_item classplus_client decoder token (JObj fields) w
         = (Ret (missing_url_report fields), w, []))
        /\ (truthy (get_or_none "encrypted_url" fields) = true ->
            exists r w' rest,
              batch_item classplus_client decoder token (JObj fields) w
              = (r, w',
                 (DecodeUrl (get_or_none "encrypted_url" fields) token,
                  fst (ClassPlusDecoder.decode_url decoder
                         (get_or_none "encrypted_url" fields) token w)) :: rest)))
  /\ (forall request w token items w1,
        accepted classplus_client request w token items w1 ->
        forallb is_object items = true ->
        clock_answers decoder ->
        exists resp w' tr results,
          batch_decode_urls classplus_client decoder debug request w
          = (Ret resp, w', tr)
          /\ status resp = 200%Z
          /\ field "results" (body resp) = Some (JList results)
          /\ Forall2
               (fun url_data entry =>
                  forall fields,
                    url_data = JObj fields ->
                    truthy (get_or_none "encrypted_url" fields) = false ->
                    entry = missing_url_report fields)
               items results).
Proof.
  split; [|split; [|split; [|split]]].
  - intros rt request w Hrej. destruct rt.
    all: unfold rejected_early, get_or_none in Hrej; revert Hrej.
    all: unfold_handler; crunch.
    all: intros Hrej; tests.
    all: try discriminate Hrej.
    all: try solve [eexists; split; reflexivity].
    all: cbn in *; congruence.
  - intros request fields w Hjson Htoken Hurl.
    assert (Hdata : truthy (JObj fields) = true).
    { destruct fields; [discriminate Htoken | reflexivity]. }
    unfold get_or_none in *. unfold_handler. rewrite Hjson, Hdata.
    revert Htoken Hurl. crunch.
    all: intros Htoken Hurl; tests; try congruence.
    all: do 3 eexists; (split; [reflexivity|]).
    all: intros v0 Hv0 Ht0; inversion Hv0; subst; try congruence.
    all: do 2 eexists; reflexivity.
  - intros request fields items w Hjson Htoken Hurls Hitems.
    assert (Hdata : truthy (JObj fields) = true).
    { destruct fields; [discriminate Htoken | reflexivity]. }
    assert (Hlist : truthy (JList items) = true).
    { destruct items; [contradiction | reflexivity]. }
    unfold get_or_none in *. unfold_handler. rewrite Hjson, Hdata, Hurls.
    cbv beta iota. rewrite Hlist. cbn [isinstance_list negb orb].
    revert Htoken. crunch.
    all: intros Htoken; tests; try congruence.
    all: do 3 eexists; (split; [reflexivity|]).
    all: intros v0 Hv0 Ht0; inversion Hv0; subst; try congruence.
    all: split; reflexivity.
  - intros token fields w. split.
    + apply batch_item_missing_url.
    + intros Hurl. unfold get_or_none in *. unfold_handler.
      revert Hurl. crunch.
      all: intros Hurl; tests; try congruence.
      all: do 3 eexists; reflexivity.
  - intros request w token items w1
      (pf & v & Hjson & Htoken & Htruthy & Hurls & Hitems & Hvalid & Hv) Hobj Hclock.
    rewrite (batch_decode_urls_accepted _ _ _ _ _ _ _ _ _ _
               Hjson Htoken Htruthy Hurls Hitems Hvalid Hv).
    destruct (batch_loop_objects classplus_client decoder token items [] w1 Hobj)
      as (results & w2 & t & Hloop).
    rewrite Hloop.
    destruct (batch_loop_ret _ _ _ _ _ _ _ _ _ Hloop)
      as (entries & Hout & Hrep & _ & _).
    cbn [app] in Hout. subst entries.
    destruct (Hclock w2) as (timestamp & w3 & Htime). rewrite Htime.
    do 3 eexists. exists results. split; [reflexivity|].
    split; [reflexivity|]. split; [reflexivity|].
    eapply Forall2_impl; [|exact Hrep].
    intros url_data entry (w0 & w0' & tr0 & Hrun) fields0 -> Hurl.
    rewrite (batch_item_missing_url token fields0 w0 Hurl) in Hrun.
    inversion Hrun. reflexivity.
Qed.

End InputErrors.

(** ** The scenarios of the specification, on the test double *)

Lemma fixture_accepts :
  forall items,
    items <> [] ->
    accepted Fixture.client (Fixture.batch items) 1000%Z
      (JStr Fixture.live_token) items 1000%Z.
Proof.
  intros items Hitems.
  exists [("token", JStr Fixture.live_token); ("urls", JList items)], (JBool true).
  repeat split. exact Hitems.
Qed.

Lemma fixture_clock_answers : clock_answers Fixture.decoder.
Proof. intros w. do 2 eexists. reflexivity. Qed.

(** Section 8: the token "expired-token-X" does not validate; the decode
    handler answers 401 and never reaches the decoder. *)
Lemma expired_token_scenario :
  exists resp w' tr,
    handle Fixture.client Fixture.decoder false ApiDecode Fixture.expired 1000%Z
    = (Ret resp, w', tr)
    /\ status resp = 401%Z
    /\ forall ev, In ev tr -> decode_or_sign (fst ev) = false.
Proof.
  destruct (failed_validation_never_decodes Fixture.client Fixture.decoder false
              ApiDecode Fixture.expired 1000%Z (or_introl eq_refl))
    as (resp & w' & tr & Hrun & Hstop & _).
  exists resp, w', tr. split; [exact Hrun|].
  apply (Hstop (JStr "expired-token-X") (JBool false)); [|reflexivity].
  vm_compute in Hrun. inversion Hrun. left. reflexivity.
Defined.

(** A live token presented to the validation route: the lookup of its claims
    comes right after the validation that accepted it. *)
Lemma token_info_scenario :
  exists resp w' tr v rest,
    handle Fixture.client Fixture.decoder false ApiValidateToken
      Fixture.check_token 1000%Z = (Ret resp, w', tr)
    /\ tr = (ValidateToken (JStr Fixture.live_token), Ret v)
            :: (GetTokenInfo (JStr Fixture.live_token),
                Ret (JObj [("subject", JStr "user-1"); ("expiry", JInt 4600)]))
            :: rest
    /\ truthy v = true.
Proof.
  destruct (token_info_only_after_validation Fixture.client Fixture.decoder false
              ApiValidateToken Fixture.check_token 1000%Z)
    as (resp & w' & tr & Hrun & Hafter & _).
  destruct (Hafter (JStr Fixture.live_token)
              (Ret (JObj [("subject", JStr "user-1"); ("expiry", JInt 4600)])))
    as (v & rest & Htr & Hv).
  { vm_compute in Hrun. inversion Hrun. right. left. reflexivity. }
  exists resp, w', tr, v, rest. repeat split; assumption.
Defined.

(** An encrypted URL that is not a product of the scheme: the decoder gives
    its empty sentinel and the decode route answers 400, DECODE_FAILED. *)
Lemma undecodable_scenario :
  exists resp w' tr,
    decode_video_url Fixture.client Fixture.decoder false Fixture.undecodable 1000%Z
    = (Ret resp, w', tr)
    /\ status resp = 400%Z
    /\ field "code" (body resp) = Some (JStr "DECODE_FAILED").
Proof.
  destruct (decode_failure_is_400 Fixture.client Fixture.decoder false
              Fixture.undecodable 1000%Z)
    as (resp & w' & tr & Hrun & Hfail).
  exists resp, w', tr. split; [exact Hrun|].
  rewrite (Hfail (JStr "not-an-encoded-url") (JStr Fixture.live_token) (JStr "")).
  - split; reflexivity.
  - vm_compute in Hrun. inversion Hrun. right. left. reflexivity.
  - reflexivity.
Defined.

(** The simple route signs a plaintext URL: one validation, one signature,
    no decoding. *)
Lemma simple_scenario :
  exists resp w' tr,
    decode_video_url_simple Fixture.client Fixture.decoder Fixture.simple 1000%Z
    = (Ret resp, w', tr)
    /\ tr = [(ValidateToken (JStr Fixture.live_token), Ret (JBool true));
             (GeneratePlayableUrl (JStr "https://cdn.example/v1.m3u8")
                (JStr Fixture.live_token),
              Ret (JStr "https://cdn.example/v1.m3u8?token=live-token"))]
    /\ resp = jsonify [("status", JStr "ok");
                       ("success", JBool true);
                       ("url", JStr "https://cdn.example/v1.m3u8?token=live-token")].
Proof.
  destruct (simple_route_signs_without_decoding Fixture.client Fixture.decoder
              Fixture.simple 1000%Z)
    as (resp & w' & tr & Hrun & _ & Hsign).
  destruct (Hsign (JBool true) 1000%Z eq_refl eq_refl eq_refl eq_refl)
    as (r & Hgen & Htr & Hresp).
  exists resp, w', tr. split; [exact Hrun|].
  vm_compute in Hgen. inversion Hgen. subst r.
  split; [exact Htr|]. apply Hresp. reflexivity.
Defined.

(** A payload without a token is turned away with 400 before any call; a
    token that is a number goes to [validate_token]; a batch whose only
    entry has no [encrypted_url] is validated first and then answered 200
    with that entry reported as failed. *)
Lemma input_errors_scenario :
  (exists resp,
      handle Fixture.client Fixture.decoder false ApiDecode Fixture.no_token 1000%Z
      = (Ret resp, 1000%Z, [])
      /\ status resp = 400%Z)
  /\ (exists resp w' rest,
        decode_video_url Fixture.client Fixture.decoder false
          Fixture.numeric_token 1000%Z
        = (Ret resp, w', (ValidateToken (JInt 12345), Ret (JBool false)) :: rest))
  /\ (exists resp w' rest,
        batch_decode_urls Fixture.client Fixture.decoder false
          (Fixture.batch Fixture.entry_without_url) 1000%Z
        = (Ret resp, w',
           (ValidateToken (JStr Fixture.live_token), Ret (JBool true)) :: rest))
  /\ batch_item Fixture.client Fixture.decoder (JStr Fixture.live_token)
       (JObj [("video_id", JInt 4)]) 1000%Z
     = (Ret (missing_url_report [("video_id", JInt 4)]), 1000%Z, [])
  /\ (exists resp w' tr,
        batch_decode_urls Fixture.client Fixture.decoder false
          (Fixture.batch Fixture.entry_without_url) 1000%Z = (Ret resp, w', tr)
        /\ status resp = 200%Z
        /\ field "results" (body resp)
           = Some (JList [missing_url_report [("video_id", JInt 4)]])).
Proof.
  destruct (input_errors_rejected_before_core Fixture.client Fixture.decoder false)
    as (Hearly & Hdecode & Hbatch & Hentry & Hreport).
  split; [|split; [|split; [|split]]].
  - apply (Hearly ApiDecode Fixture.no_token 1000%Z). reflexivity.
  - destruct (Hdecode Fixture.numeric_token
                [("token", JInt 12345);
                 ("encrypted_url", JStr "enc:https://cdn.example/v1.m3u8");
                 ("video_id", JInt 1)] 1000%Z eq_refl eq_refl eq_refl)
      as (resp & w' & rest & Hrun & _).
    exists resp, w', rest. exact Hrun.
  - destruct (Hbatch (Fixture.batch Fixture.entry_without_url)
                [("token", JStr Fixture.live_token);
                 ("urls", JList Fixture.entry_without_url)]
                Fixture.entry_without_url 1000%Z eq_refl eq_refl eq_refl)
      as (resp & w' & rest & Hrun & _); [discriminate|].
    exists resp, w', rest. exact Hrun.
  - apply (Hentry (JStr Fixture.live_token) [("video_id", JInt 4)] 1000%Z).
    reflexivity.
  - destruct (Hreport (Fixture.batch Fixture.entry_without_url) 1000%Z
                (JStr Fixture.live_token) Fixture.entry_without_url 1000%Z)
      as (resp & w' & tr & results & Hrun & Hstatus & Hres & Hall).
    + apply fixture_accepts. discriminate.
    + reflexivity.
    + exact fixture_clock_answers.
    + exists resp, w', tr. split; [exact Hrun|]. split; [exact Hstatus|].
      rewrite Hres. inversion Hall as [|u r us rs Hu Hrest]; subst.
      inversion Hrest; subst.
      rewrite (Hu [("video_id", JInt 4)] eq_refl eq_refl). reflexivity.
Defined.

(** The sentence of section 7 fails twice: a batch entry without
    [encrypted_url] is found only after [validate_token] has been called, in
    a response of status 200; and a token that is a number goes to
    [validate_token] as it is. *)
Lemma input_error_contract_fails :
  ~ input_error_contract Fixture.client Fixture.decoder false ApiBatchDecode
      (Fixture.batch Fixture.entry_without_url) 1000%Z
  /\ ~ input_error_contract Fixture.client Fixture.decoder false ApiDecode
        Fixture.numeric_token 1000%Z.
Proof.
  split; intros Hcontract.
  all: destruct (Hcontract eq_refl) as (resp & w' & Hrun & _).
  all: vm_compute in Hrun; discriminate Hrun.
Qed.

(** A bare string among the urls: the whole request is answered 500. *)
Lemma bare_string_entry_scenario :
  exists e w' tr,
    batch_decode_urls Fixture.client Fixture.decoder false
      (Fixture.batch Fixture.bare_string_entry) 1000%Z
    = (Ret (internal_error false e), w', tr)
    /\ status (internal_error false e) = 500%Z
    /\ field "results" (body (internal_error false e)) = None.
Proof.
  apply (batch_aborts_on_non_dict_entry Fixture.client Fixture.decoder false
           (Fixture.batch Fixture.bare_string_entry) 1000%Z
           (JStr Fixture.live_token) Fixture.bare_string_entry 1000%Z).
  - apply fixture_accepts. discriminate.
  - reflexivity.
Defined.

(** Section 8: five urls, three decode and two do not; total is 5 and
    successful is 3. *)
Lemma three_of_five_scenario :
  exists resp w' tr,
    batch_decode_urls Fixture.client Fixture.decoder false
      (Fixture.batch Fixture.three_of_five) 1000%Z = (Ret resp, w', tr)
    /\ field "total" (body resp) = Some (JInt 5)
    /\ field "successful" (body resp) = Some (JInt 3).
Proof.
  destruct (batch_counts Fixture.client Fixture.decoder false
              (Fixture.batch Fixture.three_of_five) 1000%Z
              (JStr Fixture.live_token) Fixture.three_of_five 1000%Z)
    as (resp & w' & tr & results & Hrun & Hres & _ & Htotal & Hsucc).
  - apply fixture_accepts. discriminate.
  - reflexivity.
  - exact fixture_clock_answers.
  - exists resp, w', tr. split; [exact Hrun|]. split; [exact Htotal|].
    rewrite Hsucc. vm_compute in Hrun. inversion Hrun. subst resp.
    cbn in Hres. inversion Hres. reflexivity.
Defined.

(** Two urls and neither decodes: the envelope still says success, 200. *)
Lemma none_of_two_scenario :
  exists resp w' tr,
    batch_decode_urls Fixture.client Fixture.decoder false
      (Fixture.batch Fixture.none_of_two) 1000%Z = (Ret resp, w', tr)
    /\ status resp = 200%Z
    /\ field "success" (body resp) = Some (JBool true).
Proof.
  apply (batch_envelope_succeeds Fixture.client Fixture.decoder false
           (Fixture.batch Fixture.none_of_two) 1000%Z
           (JStr Fixture.live_token) Fixture.none_of_two 1000%Z).
  - apply fixture_accepts. discriminate.
  - reflexivity.
  - exact fixture_clock_answers.
Defined.

(** The five urls again: five entries, in the order of the urls. *)
Lemma five_entries_scenario :
  exists resp w' tr results,
    batch_decode_urls Fixture.client Fixture.decoder false
      (Fixture.batch Fixture.three_of_five) 1000%Z = (Ret resp, w', tr)
    /\ field "results" (body resp) = Some (JList results)
    /\ List.length results = 5%nat
    /\ map (field "video_id") results
       = [Some (JInt 1); Some (JInt 2); Some (JInt 3); Some (JInt 4); Some (JInt 5)].
Proof.
  edestruct (batch_results_align Fixture.client Fixture.decoder false
               (Fixture.batch Fixture.three_of_five) 1000%Z)
    as (fields & token & items & Hjson & Htoken & Hurls & Hlen & _ & _).
  - reflexivity.
  - reflexivity.
  - do 4 eexists. split; [reflexivity|]. split; [reflexivity|].
    inversion Hjson. subst fields. inversion Hurls. subst items.
    split; [exact Hlen | reflexivity].
Defined.

(** ** Further properties of app.py *)

Section Rest.

Context {world : Type}.
Variable classplus_client : ClassPlusClient.t world.
Variable decoder : ClassPlusDecoder.t world.
Variable debug : bool.

Lemma under_token_no_validation :
  forall token tr,
    Forall (under_token token) tr -> calls is_validate tr = 0%nat.
Proof.
  intros token tr Htr. unfold calls.
  induction Htr as [|ev rest Hev _ IH]; [reflexivity|].
  cbn [filter]. destruct ev as [[] r]; cbn in Hev |- *; try contradiction; exact IH.
Qed.

Lemma calls_app :
  forall kind t1 t2, calls kind (t1 ++ t2) = (calls kind t1 + calls kind t2)%nat.
Proof.
  intros kind t1 t2. unfold calls. rewrite filter_app, length_app. reflexivity.
Qed.

(** X1.  Every route handler answers, whatever the request and whatever the
    collaborators do (an exception of theirs is caught): the status is 200,
    400, 401 or 500, and it is 200 exactly when the flag at the top of the
    body ([valid] on the validation route, [success] elsewhere) is true. *)
Theorem status_is_one_of_four :
  forall rt request w,
    exists resp w' tr,
      handle classplus_client decoder debug rt request w = (Ret resp, w', tr)
      /\ In (status resp) [200; 400; 401; 500]%Z
      /\ (status resp = 200%Z <-> top_flag rt resp = Some (JBool true)).
Proof.
  intros rt request w. destruct rt.
  all: unfold_handler; crunch.
  all: do 3 eexists; (split; [reflexivity|]).
  all: cbn; split; [tauto|].
  all: split; intros H; try discriminate H; reflexivity.
Qed.

(** X2.  A request either causes no call at all, or its first call is
    [validate_token] on the token the request presents, and no later call of
    the same request validates again. *)
Theorem validation_once_and_first :
  forall rt request w,
    exists resp w' tr,
      handle classplus_client decoder debug rt request w = (Ret resp, w', tr)
      /\ (tr = []
          \/ exists r rest,
               tr = (ValidateToken (presented_token rt request), r) :: rest
               /\ calls is_validate rest = 0%nat).
Proof.
  intros rt request w. destruct rt.
  all: unfold presented_token, get_or_none; unfold_handler; crunch.
  all: do 3 eexists; (split; [reflexivity|]).
  all: cbn [app]; try (left; reflexivity).
  all: right; do 2 eexists; split; [reflexivity|].
  all: rewrite ?calls_app.
  all: repeat match goal with
         | H : batch_loop _ _ _ _ _ _ = (_, _, ?t) |- _ =>
             rewrite (under_token_no_validation _ _
                        (batch_loop_trace _ _ _ _ _ _ _ _ _ H)); clear H
         end.
  all: reflexivity.
Qed.

(** X3.  With [app.debug] off no response has a [details] field other than
    [None]. *)
Theorem no_details_without_debug :
  forall rt request w,
    exists resp w' tr,
      handle classplus_client decoder false rt request w = (Ret resp, w', tr)
      /\ (field "details" (body resp) = None
          \/ field "details" (body resp) = Some JNull).
Proof.
  intros rt request w. destruct rt.
  all: unfold_handler; crunch.
  all: do 3 eexists; (split; [reflexivity|]).
  all: cbn; tauto.
Qed.

Lemma batch_item_raises :
  forall token url_data w r w' tr e,
    batch_item classplus_client decoder token url_data w = (r, w', tr) ->
    r = Raise e ->
    is_object url_data = false /\ e = no_get url_data.
Proof.
  intros token url_data w r w' tr e Hrun ->.
  destruct url_data.
  all: try (cbn in Hrun; inversion Hrun; subst; split; reflexivity).
  destruct (batch_item_object classplus_client decoder token fields w)
    as (entry & w1 & t1 & Heq & _).
  rewrite Heq in Hrun. discriminate Hrun.
Qed.

(** A loop that is left by an exception was left at its first entry that is
    not a dict, by the AttributeError of that entry. *)
Lemma batch_loop_raises :
  forall token urls results w e w' tr,
    batch_loop classplus_client decoder token urls results w = (Raise e, w', tr) ->
    exists pre url_data post,
      urls = pre ++ url_data :: post
      /\ forallb is_object pre = true
      /\ is_object url_data = false
      /\ e = no_get url_data.
Proof.
  intros token urls. induction urls as [|u rest IH]; intros results w e w' tr Hrun.
  - discriminate Hrun.
  - rewrite batch_loop_step in Hrun.
    destruct (batch_item classplus_client decoder token u w)
      as [[[entry|e1] w1] t1] eqn:Hitem.
    + destruct (batch_loop classplus_client decoder token rest (results ++ [entry]) w1)
        as [[r2 w2] t2] eqn:Hrest.
      inversion Hrun; subst.
      destruct (IH _ _ _ _ _ Hrest) as (pre & x & post & Hurls & Hpre & Hx & He).
      destruct (batch_item_ret_object _ _ _ _ _ _ _ _ Hitem) as [Hu _].
      exists (u :: pre), x, post. subst rest. cbn. rewrite Hu, Hpre. auto.
    + inversion Hrun; subst.
      destruct (batch_item_raises _ _ _ _ _ _ _ Hitem eq_refl) as [Hu He].
      exists [], u, rest. auto.
Qed.

(** The last event of an explicit trace, for a call that raised. *)
Ltac last_event :=
  match goal with
  | |- exists c rest, [(?c0, Raise _)] = _ => exists c0, []; reflexivity
  | |- exists c rest, [?a; (?c0, Raise _)] = _ => exists c0, [a]; reflexivity
  | |- exists c rest, [?a; ?b; (?c0, Raise _)] = _ => exists c0, [a; b]; reflexivity
  | |- exists c rest, ?a :: ?t ++ [(?c0, Raise _)] = _ =>
      exists c0, (a :: t); reflexivity
  end.

(** X4.  With [app.debug] on, a 500 of a POST route is the body of
    [internal_error] for the exception that was caught, its text under
    [details]: the exception of [request.get_json()], the AttributeError of
    [.get] on a payload that is not a dict, the exception raised by the last
    call made, or on the batch route the AttributeError of the first url
    entry that is not a dict. *)
Theorem details_with_debug :
  forall rt request w,
    rt <> ApiSimple ->
    exists resp w' tr,
      handle classplus_client decoder true rt request w = (Ret resp, w', tr)
      /\ (status resp = 500%Z ->
          exists e,
            resp = internal_error true e
            /\ field "details" (body resp) = Some (JStr (str e))
            /\ (get_json request = Raise e
                \/ (exists data,
                       get_json request = Ret data
                       /\ is_object data = false
                       /\ e = no_get data)
                \/ (exists c rest, tr = rest ++ [(c, Raise e)])
                \/ (rt = ApiBatchDecode
                    /\ exists pre url_data post,
                         submitted request = pre ++ url_data :: post
                         /\ forallb is_object pre = true
                         /\ is_object url_data = false
                         /\ e = no_get url_data))).
Proof.
  intros rt request w Hrt. destruct rt; try contradiction.
  all: unfold submitted; unfold_handler; crunch.
  all: do 3 eexists; (split; [reflexivity|]).
  all: intros H; try discriminate H.
  all: cbn [app]; rewrite ?app_nil_r.
  all: eexists; split; [reflexivity|]; split; [reflexivity|].
  all: try (left; reflexivity).
  all: try (right; left; eexists; repeat split; reflexivity).
  all: try (right; right; left; last_event).
  all: tests; try discriminate.
  all: match goal with
       | H : iterate _ = Ret _ |- _ => cbn in H; inversion H; subst; clear H
       end.
  all: try match goal with
           | Hl : batch_loop _ _ _ _ _ _ = (Ret ?rs, _, _),
             Hs : successful_results ?rs = Raise _ |- _ =>
               destruct (batch_loop_ret _ _ _ _ _ _ _ _ _ Hl)
                 as (entries & Hout & _ & _ & Hobj);
               cbn [app] in Hout; subst entries;
               rewrite (successful_results_objects rs Hobj) in Hs; discriminate Hs
           end.
  all: right; right; right; split; [reflexivity|].
  all: eapply batch_loop_raises; eassumption.
Qed.

(** X5.  A [code] in a response of a route handler is one of the error codes
    [api_docs] lists, except MISSING_URLS of the batch route, which it does
    not list. *)
Theorem answered_codes_are_documented :
  forall rt request w,
    exists resp w' tr,
      handle classplus_client decoder debug rt request w = (Ret resp, w', tr)
      /\ (forall code,
            field "code" (body resp) = Some code ->
            (exists name, code = JStr name /\ In name documented_codes)
            \/ (rt = ApiBatchDecode
                /\ code = JStr "MISSING_URLS"
                /\ ~ In "MISSING_URLS" documented_codes)).
Proof.
  intros rt request w. destruct rt.
  all: unfold_handler; crunch.
  all: do 3 eexists; (split; [reflexivity|]).
  all: intros code Hcode; cbn in Hcode; try discriminate Hcode.
  all: inversion Hcode; subst; clear Hcode.
  all: try (left; eexists; split; [reflexivity|]; cbn; tauto).
  all: right; repeat split.
  all: cbn; intros H; repeat (destruct H as [H|H]; [discriminate H|]); exact H.
Qed.

(** X6.  On the POST routes an exception of [request.get_json()], and a
    payload that is true but not a dict (its [.get] raises AttributeError),
    are answered 500 by the [except] clause, before any call and with the
    world untouched. *)
Theorem unreadable_payload_is_500 :
  forall rt request w,
    rt <> ApiSimple ->
    (forall e,
        get_json request = Raise e ->
        handle classplus_client decoder debug rt request w
        = (Ret (internal_error debug e), w, []))
    /\ (forall data,
          get_json request = Ret data ->
          truthy data = true ->
          is_object data = false ->
          handle classplus_client decoder debug rt request w
          = (Ret (internal_error debug
                    (Exception "AttributeError"
                       ("'" ++ type_name data
                            ++ "' object has no attribute 'get'")%string)),
             w, [])).
Proof.
  intros rt request w Hrt. destruct rt; try contradiction.
  all: split; [intros e Hjson | intros data Hjson Htruthy Hobj].
  all: unfold_handler; rewrite Hjson; try reflexivity.
  all: rewrite Htruthy; destruct data; try discriminate Hobj; reflexivity.
Qed.

(** X7.  A 200 of [/api/decode] means: the payload was a dict, its token was
    validated with a true answer, its encrypted URL decoded to a true value
    and that value was signed, these three calls and no other, in this
    order; the body carries what the decoder returned and the [video_id] of
    the payload. *)
Theorem decode_200_means_signed :
  forall request w resp w' tr,
    decode_video_url classplus_client decoder debug request w = (Ret resp, w', tr) ->
    status resp = 200%Z ->
    exists fields v decoded_url playable_url,
      get_json request = Ret (JObj fields)
      /\ tr = [(ValidateToken (get_or_none "token" fields), Ret v);
               (DecodeUrl (get_or_none "encrypted_url" fields)
                  (get_or_none "token" fields), Ret decoded_url);
               (GeneratePlayableUrl decoded_url (get_or_none "token" fields),
                Ret playable_url)]
      /\ truthy v = true
      /\ truthy decoded_url = true
      /\ resp = jsonify [("status", JStr "ok");
                         ("success", JBool true);
                         ("url", playable_url);
                         ("decoded_url", decoded_url);
                         ("video_id", get_or_none "video_id" fields)].
Proof.
  intros request w resp w' tr Hrun Hstatus.
  unfold_handler_in Hrun. revert Hrun. unfold get_or_none. crunch.
  all: intros Hrun; inversion Hrun; subst; clear Hrun.
  all: try discriminate Hstatus.
  all: tests.
  all: do 4 eexists; split; [reflexivity|].
  all: repeat match goal with
         | H : lookup _ _ = _ |- _ => rewrite H
         end.
  all: repeat split; assumption.
Qed.

(** X8.  [/api/decode] when every step goes through: the response, the
    world left behind and the three calls. *)
Theorem decode_happy_path :
  forall request fields w v w1 decoded_url w2 playable_url w3,
    get_json request = Ret (JObj fields) ->
    truthy (get_or_none "token" fields) = true ->
    truthy (get_or_none "encrypted_url" fields) = true ->
    ClassPlusClient.validate_token classplus_client
      (get_or_none "token" fields) w = (Ret v, w1) ->
    truthy v = true ->
    ClassPlusDecoder.decode_url decoder (get_or_none "encrypted_url" fields)
      (get_or_none "token" fields) w1 = (Ret decoded_url, w2) ->
    truthy decoded_url = true ->
    ClassPlusDecoder.generate_playable_url decoder decoded_url
      (get_or_none "token" fields) w2 = (Ret playable_url, w3) ->
    decode_video_url classplus_client decoder debug request w
    = (Ret (jsonify [("status", JStr "ok");
                     ("success", JBool true);
                     ("url", playable_url);
                     ("decoded_url", decoded_url);
                     ("video_id", get_or_none "video_id" fields)]),
       w3,
       [(ValidateToken (get_or_none "token" fields), Ret v);
        (DecodeUrl (get_or_none "encrypted_url" fields)
           (get_or_none "token" fields), Ret decoded_url);
        (GeneratePlayableUrl decoded_url (get_or_none "token" fields),
         Ret playable_url)]).
Proof.
  intros request fields w v w1 decoded_url w2 playable_url w3
    Hjson Htoken Hurl Hvalid Hv Hdecode Hd Hsign.
  assert (Hdata : truthy (JObj fields) = true).
  { destruct fields; [discriminate Htoken | reflexivity]. }
  unfold get_or_none in *. unfold_handler.
  rewrite Hjson, Hdata. cbn [negb]. cbv beta iota.
  rewrite Htoken, Hurl. cbn [negb fst snd]. cbv beta iota.
  rewrite Hvalid. cbv beta iota. rewrite Hv. cbn [negb]. cbv beta iota.
  rewrite Hdecode. cbv beta iota. rewrite Hd. cbn [negb]. cbv beta iota.
  rewrite Hsign. reflexivity.
Qed.

(** X9.  The body of a 200 of [/api/decode] has the keys status, success,
    url, decoded_url, video_id; of the response fields [api_docs] gives for
    this endpoint, [video_url] and [timestamp] are not in it. *)
Theorem decode_success_fields_vs_docs :
  forall request w resp w' tr,
    decode_video_url classplus_client decoder debug request w = (Ret resp, w', tr) ->
    status resp = 200%Z ->
    keys (body resp) = ["status"; "success"; "url"; "decoded_url"; "video_id"]
    /\ filter (fun key => match field key (body resp) with
                          | Some _ => false
                          | None => true
                          end)
         (documented_fields "/api/decode")
       = ["video_url"; "timestamp"].
Proof.
  intros request w resp w' tr Hrun Hstatus.
  unfold_handler_in Hrun. revert Hrun. crunch.
  all: intros Hrun; inversion Hrun; subst; clear Hrun.
  all: try discriminate Hstatus.
  all: split; reflexivity.
Qed.

(** X10.  [/api/validate-token]: a 200 means validation answered true, then
    the claims were read, then the clock; a 401 means validation answered
    with a value that is not true, then the clock was read, and the claims
    were not. *)
Theorem validate_route_answers :
  forall request w resp w' tr,
    validate_token classplus_client decoder debug request w = (Ret resp, w', tr) ->
    (status resp = 200%Z ->
     exists v token_info timestamp,
       tr = [(ValidateToken (presented_token ApiValidateToken request), Ret v);
             (GetTokenInfo (presented_token ApiValidateToken request), Ret token_info);
             (GetTimestamp, Ret timestamp)]
       /\ truthy v = true
       /\ resp = jsonify [("valid", JBool true);
                          ("token_info", token_info);
                          ("timestamp", timestamp)])
    /\ (status resp = 401%Z ->
        exists v timestamp,
          tr = [(ValidateToken (presented_token ApiValidateToken request), Ret v);
                (GetTimestamp, Ret timestamp)]
          /\ truthy v = false
          /\ resp = with_status
                      (jsonify [("valid", JBool false);
                                ("error", JStr "Invalid or expired token");
                                ("timestamp", timestamp)]) 401).
Proof.
  intros request w resp w' tr Hrun.
  unfold_handler_in Hrun. revert Hrun. unfold presented_token, get_or_none. crunch.
  all: intros Hrun; inversion Hrun; subst; clear Hrun.
  all: split; intros Hstatus; try discriminate Hstatus.
  all: tests.
  all: repeat eexists; assumption.
Qed.

Lemma returned_calls_app :
  forall kind t1 t2,
    returned_calls kind (t1 ++ t2)
    = (returned_calls kind t1 + returned_calls kind t2)%nat.
Proof.
  intros kind t1 t2. unfold returned_calls. rewrite filter_app, length_app.
  reflexivity.
Qed.

Lemma calls_cons :
  forall kind ev tr,
    calls kind (ev :: tr) = ((if kind (fst ev) then 1 else 0) + calls kind tr)%nat.
Proof.
  intros kind ev tr. unfold calls. cbn [filter].
  destruct (kind (fst ev)); reflexivity.
Qed.

Lemma returned_calls_cons :
  forall kind ev tr,
    returned_calls kind (ev :: tr)
    = ((if kind (fst ev) && returned ev then 1 else 0) + returned_calls kind tr)%nat.
Proof.
  intros kind ev tr. unfold returned_calls. cbn [filter].
  destruct (kind (fst ev) && returned ev); reflexivity.
Qed.

Lemma succeeded_count_app :
  forall xs ys,
    List.length (filter succeeded (xs ++ ys))
    = (List.length (filter succeeded xs) + List.length (filter succeeded ys))%nat.
Proof. intros xs ys. rewrite filter_app, length_app. reflexivity. Qed.

(** One turn of the loop: at most one decoding, a signature only after a
    decoding, and a successful entry exactly when the signature returned. *)
Lemma batch_item_calls :
  forall token url_data w r w' tr,
    batch_item classplus_client decoder token url_data w = (r, w', tr) ->
    (calls is_decode tr <= 1)%nat
    /\ (calls is_sign tr <= calls is_decode tr)%nat
    /\ forall entry,
         r = Ret entry ->
         List.length (filter succeeded [entry]) = returned_calls is_sign tr.
Proof.
  intros token url_data w r w' tr Hrun.
  unfold_handler_in Hrun. revert Hrun. crunch.
  all: intros Hrun; inversion Hrun; subst; clear Hrun.
  all: cbn; repeat split; try lia.
  all: intros entry Hentry; inversion Hentry; subst; reflexivity.
Qed.

Lemma batch_loop_calls :
  forall token urls results w r w' tr,
    batch_loop classplus_client decoder token urls results w = (r, w', tr) ->
    (calls is_decode tr <= List.length urls)%nat
    /\ (calls is_sign tr <= calls is_decode tr)%nat
    /\ forall out,
         r = Ret out ->
         List.length (filter succeeded out)
         = (List.length (filter succeeded results) + returned_calls is_sign tr)%nat.
Proof.
  intros token urls. induction urls as [|url_data rest IH]; intros results w r w' tr Hrun.
  - inversion Hrun; subst. cbn. repeat split; try lia.
    intros out Hout. inversion Hout; subst. lia.
  - rewrite batch_loop_step in Hrun.
    destruct (batch_item classplus_client decoder token url_data w)
      as [[[entry|e] w1] t1] eqn:Hitem.
    + destruct (batch_loop classplus_client decoder token rest (results ++ [entry]) w1)
        as [[r2 w2] t2] eqn:Hrest.
      inversion Hrun; subst.
      destruct (batch_item_calls _ _ _ _ _ _ Hitem) as (Hd1 & Hs1 & Hok1).
      destruct (IH _ _ _ _ _ Hrest) as (Hd2 & Hs2 & Hok2).
      rewrite !calls_app, returned_calls_app. cbn [List.length].
      repeat split; try lia.
      intros out Hout. rewrite (Hok2 out Hout), succeeded_count_app.
      rewrite (Hok1 entry eq_refl). lia.
    + inversion Hrun; subst.
      destruct (batch_item_calls _ _ _ _ _ _ Hitem) as (Hd1 & Hs1 & _).
      cbn [List.length]. repeat split; try lia.
      intros out Hout. discriminate Hout.
Qed.

(** X11.  [/api/batch-decode] decodes at most once per submitted url and
    signs at most once per decoding; when the response has a [successful]
    field, it is the number of signing calls that returned. *)
Theorem batch_call_budget :
  forall request w,
    exists resp w' tr,
      batch_decode_urls classplus_client decoder debug request w = (Ret resp, w', tr)
      /\ (calls is_decode tr <= List.length (submitted request))%nat
      /\ (calls is_sign tr <= calls is_decode tr)%nat
      /\ (forall n,
            field "successful" (body resp) = Some n ->
            n = JInt (Z.of_nat (returned_calls is_sign tr))).
Proof.
  intros request w. unfold submitted. unfold_handler. crunch.
  all: do 3 eexists; (split; [reflexivity|]).
  all: cbn [app]; rewrite ?app_nil_r.
  all: tests; try discriminate.
  all: try match goal with
           | H : iterate _ = Ret _ |- _ => cbn in H; inversion H; subst; clear H
           end.
  all: try match goal with
           | H : batch_loop _ _ _ _ _ _ = (Ret _, _, _) |- _ =>
               let entries := fresh "entries" in
               destruct (batch_loop_ret _ _ _ _ _ _ _ _ _ H)
                 as (entries & Hout & _ & _ & Hobj);
               cbn [app] in Hout; subst entries
           end.
  all: try match goal with
           | H : batch_loop _ _ _ _ _ _ = _ |- _ =>
               pose proof (batch_loop_calls _ _ _ _ _ _ _ H) as (Hd & Hs & Hok)
           end.
  all: try match goal with
           | Hobj : forallb is_object ?rs = true, H : successful_results ?rs = _ |- _ =>
               rewrite (successful_results_objects rs Hobj) in H;
               inversion H; subst; clear H
           end.
  all: try match goal with
           | H : len (JList (filter _ _)) = Ret _ |- _ =>
               cbn in H; inversion H; subst; clear H
           end.
  all: rewrite ?calls_cons, ?calls_app, ?returned_calls_cons, ?returned_calls_app.
  all: repeat split.
  all: try (cbn; lia).
  all: intros ? Hn; cbn in Hn; try discriminate Hn.
  all: inversion Hn; subst; clear Hn.
  all: rewrite ?returned_calls_cons, ?returned_calls_app.
  all: rewrite (Hok _ eq_refl); cbn; f_equal; lia.
Qed.

Lemma batch_loop_app :
  forall token xs ys results w,
    batch_loop classplus_client decoder token (xs ++ ys) results w =
    match batch_loop classplus_client decoder token xs results w with
    | (Ret out, w1, t1) =>
        match batch_loop classplus_client decoder token ys out w1 with
        | (r, w2, t2) => (r, w2, t1 ++ t2)
        end
    | (Raise e, w1, t1) => (Raise e, w1, t1)
    end.
Proof.
  intros token xs. induction xs as [|x rest IH]; intros ys results w.
  - cbn [app batch_loop]. unfold ret.
    destruct (batch_loop classplus_client decoder token ys results w) as [[r w2] t2].
    reflexivity.
  - cbn [app]. rewrite !batch_loop_step.
    destruct (batch_item classplus_client decoder token x w) as [[[entry|e] w1] t1];
      [|reflexivity].
    rewrite IH.
    destruct (batch_loop classplus_client decoder token rest (results ++ [entry]) w1)
      as [[[out|e] w2] t2]; [|reflexivity].
    destruct (batch_loop classplus_client decoder token ys out w2) as [[r w3] t3].
    rewrite app_assoc. reflexivity.
Qed.

(** X12.  The reports of the first urls of a batch are those the loop gives
    for these urls alone, and its calls for them come first: what comes
    later in the list does not reach back. *)
Theorem batch_prefix_stable :
  forall token xs ys w out w' tr,
    batch_loop classplus_client decoder token (xs ++ ys) [] w = (Ret out, w', tr) ->
    exists w1 t1 t2,
      batch_loop classplus_client decoder token xs [] w
      = (Ret (firstn (List.length xs) out), w1, t1)
      /\ tr = t1 ++ t2.
Proof.
  intros token xs ys w out w' tr Hrun.
  rewrite batch_loop_app in Hrun.
  destruct (batch_loop classplus_client decoder token xs [] w)
    as [[[out1|e] w1] t1] eqn:Hxs; [|discriminate Hrun].
  destruct (batch_loop classplus_client decoder token ys out1 w1)
    as [[r w2] t2] eqn:Hys.
  inversion Hrun; subst.
  destruct (batch_loop_ret _ _ _ _ _ _ _ _ _ Hxs) as (e1 & Hout1 & Hrep1 & _ & _).
  destruct (batch_loop_ret _ _ _ _ _ _ _ _ _ Hys) as (e2 & Hout2 & _ & _ & _).
  cbn [app] in Hout1. subst.
  exists w1, t1, t2. split; [|reflexivity].
  rewrite (Forall2_length Hrep1), firstn_app, Nat.sub_diag, firstn_all.
  cbn [firstn]. rewrite app_nil_r. reflexivity.
Qed.

(** One turn of the loop in which [decode_url] raised: the entry is a dict
    and its report carries the text of that exception. *)
Lemma batch_item_raised_decode :
  forall token url_data w entry w' tr encrypted_url tok e,
    batch_item classplus_client decoder token url_data w = (Ret entry, w', tr) ->
    In (DecodeUrl encrypted_url tok, Raise e) tr ->
    exists fields,
      url_data = JObj fields
      /\ get_or_none "encrypted_url" fields = encrypted_url
      /\ entry = error_report (get_or_none "video_id" fields) e.
Proof.
  intros token url_data w entry w' tr encrypted_url tok e Hrun Hin.
  unfold_handler_in Hrun. revert Hrun. crunch.
  all: intros Hrun; inversion Hrun; subst; clear Hrun.
  all: in_trace.
  all: eexists; split; [reflexivity|].
  all: unfold get_or_none, error_report.
  all: repeat match goal with
         | H : lookup _ _ = _ |- _ => rewrite H
         end.
  all: split; reflexivity.
Qed.

Lemma batch_loop_raised_decode :
  forall token urls results w out w' tr encrypted_url tok e,
    batch_loop classplus_client decoder token urls results w = (Ret out, w', tr) ->
    In (DecodeUrl encrypted_url tok, Raise e) tr ->
    exists i fields,
      nth_error urls i = Some (JObj fields)
      /\ get_or_none "encrypted_url" fields = encrypted_url
      /\ nth_error out (List.length results + i)
         = Some (error_report (get_or_none "video_id" fields) e).
Proof.
  intros token urls. induction urls as [|u rest IH];
    intros results w out w' tr encrypted_url tok e Hrun Hin.
  - inversion Hrun; subst. destruct Hin.
  - rewrite batch_loop_step in Hrun.
    destruct (batch_item classplus_client decoder token u w)
      as [[[entry|e1] w1] t1] eqn:Hitem; [|discriminate Hrun].
    destruct (batch_loop classplus_client decoder token rest (results ++ [entry]) w1)
      as [[r2 w2] t2] eqn:Hrest.
    inversion Hrun; subst.
    apply in_app_or in Hin. destruct Hin as [Hin | Hin].
    + destruct (batch_item_raised_decode _ _ _ _ _ _ _ _ _ Hitem Hin)
        as (fields & -> & Hurl & Hentry).
      exists 0%nat, fields. split; [reflexivity|]. split; [exact Hurl|].
      destruct (batch_loop_ret _ _ _ _ _ _ _ _ _ Hrest) as (entries & -> & _).
      rewrite Nat.add_0_r, <- app_assoc, nth_error_app2 by lia.
      rewrite Nat.sub_diag. cbn. rewrite Hentry. reflexivity.
    + destruct (IH _ _ _ _ _ _ _ _ Hrest Hin) as (i & fields & Hi & Hurl & Hout).
      exists (S i), fields. split; [exact Hi|]. split; [exact Hurl|].
      rewrite length_app in Hout. cbn [List.length] in Hout.
      replace (List.length results + S i)%nat
        with (List.length results + 1 + i)%nat by lia.
      exact Hout.
Qed.

(** X13.  Whenever [/api/batch-decode] answers 200 with [app.debug] off,
    each call of [decode_url] that raised was made for a url entry that is a
    dict, on its [encrypted_url], and the report at the position of that
    entry carries its [video_id], [success] false and the text of the
    exception. *)
Theorem batch_item_error_text :
  forall request w resp w' tr encrypted_url token e,
    batch_decode_urls classplus_client decoder false request w = (Ret resp, w', tr) ->
    status resp = 200%Z ->
    In (DecodeUrl encrypted_url token, Raise e) tr ->
    exists results i fields,
      field "results" (body resp) = Some (JList results)
      /\ nth_error (submitted request) i = Some (JObj fields)
      /\ get_or_none "encrypted_url" fields = encrypted_url
      /\ nth_error results i
         = Some (error_report (get_or_none "video_id" fields) e).
Proof.
  intros request w resp w' tr encrypted_url token e Hrun Hstatus Hin.
  unfold_handler_in Hrun. revert Hrun. unfold submitted. crunch.
  all: intros Hrun; inversion Hrun; subst; clear Hrun.
  all: try discriminate Hstatus.
  all: tests; try discriminate.
  all: match goal with
       | H : iterate _ = Ret _ |- _ => cbn in H; inversion H; subst; clear H
       end.
  all: cbn [app] in Hin; destruct Hin as [Hin | Hin]; [discriminate Hin|].
  all: apply in_app_or in Hin; destruct Hin as [Hin | Hin];
    [|destruct Hin as [Hin | []]; discriminate Hin].
  all: match goal with
       | H : batch_loop _ _ _ _ _ _ = (Ret _, _, _) |- _ =>
           destruct (batch_loop_raised_decode _ _ _ _ _ _ _ _ _ _ H Hin)
             as (i & fields0 & Hi & Hurl & Hout)
       end.
  all: eexists; exists i, fields0.
  all: split; [reflexivity|]; split; [exact Hi|]; split; [exact Hurl|exact Hout].
Qed.

(** X14.  On [/api/validate-token] a rejected token is answered only after
    the clock has been read: when [get_timestamp] raises, the answer is 500
    and not 401. *)
Theorem rejected_token_needs_clock :
  forall request fields w v w1 e w2,
    get_json request = Ret (JObj fields) ->
    truthy (get_or_none "token" fields) = true ->
    ClassPlusClient.validate_token classplus_client
      (get_or_none "token" fields) w = (Ret v, w1) ->
    truthy v = false ->
    ClassPlusDecoder.get_timestamp decoder w1 = (Raise e, w2) ->
    validate_token classplus_client decoder debug request w
    = (Ret (internal_error debug e), w2,
       [(ValidateToken (get_or_none "token" fields), Ret v);
        (GetTimestamp, Raise e)]).
Proof.
  intros request fields w v w1 e w2 Hjson Htoken Hvalid Hv Htime.
  assert (Hdata : truthy (JObj fields) = true).
  { destruct fields; [discriminate Htoken | reflexivity]. }
  unfold get_or_none in *. unfold_handler.
  rewrite Hjson, Hdata. cbn [negb]. cbv beta iota.
  rewrite Htoken. cbn [negb fst snd]. cbv beta iota.
  rewrite Hvalid. cbv beta iota. rewrite Hv. cbv beta iota.
  rewrite Htime. reflexivity.
Qed.

(** X15.  On the POST routes a payload that is not true, the empty JSON
    object included, is answered 400 INVALID_JSON; a non-empty dict whose
    token is missing or not true is answered 400 MISSING_TOKEN, whatever
    else it holds. *)
Theorem payload_rejection_codes :
  forall rt request w,
    rt <> ApiSimple ->
    (forall data,
        get_json request = Ret data ->
        truthy data = false ->
        handle classplus_client decoder debug rt request w
        = (Ret (with_status
                  (jsonify [("error", JStr "Invalid JSON payload");
                            ("code", JStr "INVALID_JSON")]) 400),
           w, []))
    /\ (forall fields,
          get_json request = Ret (JObj fields) ->
          fields <> [] ->
          truthy (get_or_none "token" fields) = false ->
          handle classplus_client decoder debug rt request w
          = (Ret (with_status
                    (jsonify [("error", JStr "Token is required");
                              ("code", JStr "MISSING_TOKEN")]) 400),
             w, [])).
Proof.
  intros rt request w Hrt. destruct rt; try contradiction.
  all: split; [intros data Hjson Hdata | intros fields Hjson Hfields Htoken].
  all: unfold get_or_none in *; unfold_handler; rewrite Hjson.
  all: try (rewrite Hdata; reflexivity).
  all: destruct fields as [|kv rest]; [contradiction|].
  all: cbn [truthy negb]; cbv beta iota.
  all: destruct (lookup "token" (kv :: rest)); rewrite Htoken; reflexivity.
Qed.

(** X16.  A 200 of [GET /api] means both parameters were there, the token
    was validated with a true answer and the url parameter signed as it
    came; the body carries what the signing returned. *)
Theorem simple_200_means_signed :
  forall request w resp w' tr,
    decode_video_url_simple classplus_client decoder request w = (Ret resp, w', tr) ->
    status resp = 200%Z ->
    exists v playable_url,
      tr = [(ValidateToken (args_get request "token"), Ret v);
            (GeneratePlayableUrl (args_get request "url")
               (args_get request "token"), Ret playable_url)]
      /\ truthy (args_get request "url") = true
      /\ truthy (args_get request "token") = true
      /\ truthy v = true
      /\ resp = jsonify [("status", JStr "ok");
                         ("success", JBool true);
                         ("url", playable_url)].
Proof.
  intros request w resp w' tr Hrun Hstatus.
  unfold_handler_in Hrun. revert Hrun. crunch.
  all: intros Hrun; inversion Hrun; subst; clear Hrun.
  all: try discriminate Hstatus.
  all: tests.
  all: do 2 eexists; repeat split; assumption.
Qed.

(** X17.  A 200 of [/api/batch-decode] means the payload submitted at least
    one url, every url entry was a dict, the first call validated the
    presented token with a true answer and the last call read the clock,
    whose answer is the [timestamp] of the body. *)
Theorem batch_200_means_all_dicts :
  forall request w resp w' tr,
    batch_decode_urls classplus_client decoder debug request w = (Ret resp, w', tr) ->
    status resp = 200%Z ->
    submitted request <> []
    /\ forallb is_object (submitted request) = true
    /\ exists v rest timestamp,
         tr = (ValidateToken (presented_token ApiBatchDecode request), Ret v)
              :: rest ++ [(GetTimestamp, Ret timestamp)]
         /\ truthy v = true
         /\ field "timestamp" (body resp) = Some timestamp.
Proof.
  intros request w resp w' tr Hrun Hstatus.
  unfold_handler_in Hrun. revert Hrun.
  unfold submitted, presented_token, get_or_none. crunch.
  all: intros Hrun; inversion Hrun; subst; clear Hrun.
  all: try discriminate Hstatus.
  all: tests; try discriminate.
  all: match goal with
       | H : iterate _ = Ret _ |- _ => cbn in H; inversion H; subst; clear H
       end.
  all: match goal with
       | H : batch_loop _ _ _ _ _ _ = (Ret _, _, _) |- _ =>
           destruct (batch_loop_ret _ _ _ _ _ _ _ _ _ H) as (? & _ & _ & Hobj & _)
       end.
  all: split; [intros ->; discriminate|].
  all: split; [exact Hobj|].
  all: do 3 eexists; repeat split; assumption.
Qed.

End Rest.

(** ** Further scenarios on the test double *)

(** Debug mode on, a body that is a JSON list: the 500 carries the text of
    the AttributeError. *)
Lemma details_scenario :
  exists resp w' tr,
    handle Fixture.client Fixture.decoder true ApiDecode
      (Fixture.post (JList [JInt 1])) 1000%Z = (Ret resp, w', tr)
    /\ status resp = 500%Z
    /\ field "details" (body resp)
       = Some (JStr "'list' object has no attribute 'get'").
Proof.
  destruct (details_with_debug Fixture.client Fixture.decoder ApiDecode
              (Fixture.post (JList [JInt 1])) 1000%Z)
    as (resp & w' & tr & Hrun & Hdetails); [discriminate|].
  exists resp, w', tr. split; [exact Hrun|].
  assert (Hstatus : status resp = 500%Z).
  { vm_compute in Hrun. inversion Hrun. reflexivity. }
  assert (Htrace : tr = []).
  { vm_compute in Hrun. inversion Hrun. reflexivity. }
  split; [exact Hstatus|].
  destruct (Hdetails Hstatus) as (e & _ & Hfield & Hcaught).
  rewrite Hfield.
  destruct Hcaught as [Hraise | [(data & Hdata & _ & He) | [(c & rest & Htr) | (Hrt & _)]]].
  - discriminate Hraise.
  - inversion Hdata. subst data e. reflexivity.
  - rewrite Htrace in Htr. destruct rest; discriminate Htr.
  - discriminate Hrt.
Defined.

(** An empty list of urls is answered with the one code the documentation
    does not list. *)
Lemma missing_urls_scenario :
  exists resp w' tr,
    handle Fixture.client Fixture.decoder false ApiBatchDecode
      (Fixture.batch []) 1000%Z = (Ret resp, w', tr)
    /\ field "code" (body resp) = Some (JStr "MISSING_URLS")
    /\ ~ In "MISSING_URLS" documented_codes.
Proof.
  destruct (answered_codes_are_documented Fixture.client Fixture.decoder false
              ApiBatchDecode (Fixture.batch []) 1000%Z)
    as (resp & w' & tr & Hrun & Hcodes).
  exists resp, w', tr. split; [exact Hrun|].
  assert (Hcode : field "code" (body resp) = Some (JStr "MISSING_URLS")).
  { vm_compute in Hrun. inversion Hrun. reflexivity. }
  split; [exact Hcode|].
  destruct (Hcodes _ Hcode) as [(name & Hname & Hin) | (_ & _ & Hout)].
  - inversion Hname. subst name. cbn in Hin.
    repeat (destruct Hin as [Hin|Hin]; [discriminate Hin|]). contradiction.
  - exact Hout.
Defined.

(** A body that is a JSON list, and a body that is no JSON at all. *)
Lemma unreadable_payload_scenario :
  handle Fixture.client Fixture.decoder false ApiDecode
    (Fixture.post (JList [JInt 1])) 1000%Z
  = (Ret (internal_error false
            (Exception "AttributeError" "'list' object has no attribute 'get'")),
     1000%Z, [])
  /\ exists e,
       handle Fixture.client Fixture.decoder false ApiDecode (Fixture.get []) 1000%Z
       = (Ret (internal_error false e), 1000%Z, []).
Proof.
  destruct (unreadable_payload_is_500 Fixture.client Fixture.decoder false
              ApiDecode (Fixture.post (JList [JInt 1])) 1000%Z) as [_ Hdata];
    [discriminate|].
  destruct (unreadable_payload_is_500 Fixture.client Fixture.decoder false
              ApiDecode (Fixture.get []) 1000%Z) as [Hraise _];
    [discriminate|].
  split.
  - apply (Hdata (JList [JInt 1])); reflexivity.
  - eexists. apply Hraise. reflexivity.
Defined.

(** A live token and an encrypted URL of the scheme: validated, decoded,
    signed. *)
Lemma decode_signed_scenario :
  exists resp w' tr fields v decoded_url playable_url,
    decode_video_url Fixture.client Fixture.decoder false decodable 1000%Z
    = (Ret resp, w', tr)
    /\ get_json decodable = Ret (JObj fields)
    /\ truthy v = true
    /\ truthy decoded_url = true
    /\ resp = jsonify [("status", JStr "ok");
                       ("success", JBool true);
                       ("url", playable_url);
                       ("decoded_url", decoded_url);
                       ("video_id", get_or_none "video_id" fields)].
Proof.
  edestruct (decode_200_means_signed Fixture.client Fixture.decoder false
               decodable 1000%Z)
    as (fields & v & decoded_url & playable_url & Hjson & _ & Hv & Hd & Hresp).
  - reflexivity.
  - reflexivity.
  - do 7 eexists. split; [reflexivity|].
    split; [exact Hjson|]. split; [exact Hv|]. split; [exact Hd|]. exact Hresp.
Defined.

Lemma decode_happy_path_scenario :
  decode_video_url Fixture.client Fixture.decoder false decodable 1000%Z
  = (Ret (jsonify [("status", JStr "ok");
                   ("success", JBool true);
                   ("url", JStr "https://cdn.example/v1.m3u8?token=live-token");
                   ("decoded_url", JStr "https://cdn.example/v1.m3u8");
                   ("video_id", JInt 1)]),
     1000%Z,
     [(ValidateToken (JStr Fixture.live_token), Ret (JBool true));
      (DecodeUrl (JStr "enc:https://cdn.example/v1.m3u8")
         (JStr Fixture.live_token), Ret (JStr "https://cdn.example/v1.m3u8"));
      (GeneratePlayableUrl (JStr "https://cdn.example/v1.m3u8")
         (JStr Fixture.live_token),
       Ret (JStr "https://cdn.example/v1.m3u8?token=live-token"))]).
Proof.
  apply (decode_happy_path Fixture.client Fixture.decoder false decodable
           [("token", JStr Fixture.live_token);
            ("encrypted_url", JStr "enc:https://cdn.example/v1.m3u8");
            ("video_id", JInt 1)]
           1000%Z (JBool true) 1000%Z (JStr "https://cdn.example/v1.m3u8") 1000%Z
           (JStr "https://cdn.example/v1.m3u8?token=live-token") 1000%Z);
    reflexivity.
Defined.

Lemma decode_fields_scenario :
  exists resp w' tr,
    decode_video_url Fixture.client Fixture.decoder false decodable 1000%Z
    = (Ret resp, w', tr)
    /\ keys (body resp) = ["status"; "success"; "url"; "decoded_url"; "video_id"]
    /\ field "video_url" (body resp) = None
    /\ field "timestamp" (body resp) = None.
Proof.
  edestruct (decode_success_fields_vs_docs Fixture.client Fixture.decoder false
               decodable 1000%Z) as (Hkeys & _).
  - reflexivity.
  - reflexivity.
  - do 3 eexists. split; [reflexivity|]. split; [exact Hkeys|].
    split; reflexivity.
Defined.

(** The validation route on a live token and on a rejected one. *)
Lemma validate_route_scenario :
  (exists resp w' tr,
      validate_token Fixture.client Fixture.decoder false Fixture.check_token 1000%Z
      = (Ret resp, w', tr)
      /\ resp = jsonify [("valid", JBool true);
                         ("token_info",
                          JObj [("subject", JStr "user-1"); ("expiry", JInt 4600)]);
                         ("timestamp", JInt 1000)])
  /\ (exists resp w' tr,
        validate_token Fixture.client Fixture.decoder false rejected_check 1000%Z
        = (Ret resp, w', tr)
        /\ status resp = 401%Z
        /\ field "valid" (body resp) = Some (JBool false)).
Proof.
  split.
  - edestruct (validate_route_answers Fixture.client Fixture.decoder false
                 Fixture.check_token 1000%Z) as (Hok & _); [reflexivity|].
    destruct (Hok eq_refl) as (v & token_info & timestamp & Htr & _ & Hresp).
    do 3 eexists. split; [reflexivity|].
    inversion Htr. subst. exact Hresp.
  - edestruct (validate_route_answers Fixture.client Fixture.decoder false
                 rejected_check 1000%Z) as (_ & Hno); [reflexivity|].
    destruct (Hno eq_refl) as (v & timestamp & _ & _ & Hresp).
    do 3 eexists. split; [reflexivity|]. rewrite Hresp. split; reflexivity.
Defined.

(** A rejected token while the clock is down: 500 instead of 401. *)
Lemma stopped_clock_scenario :
  validate_token Fixture.client stopped_clock false rejected_check 1000%Z
  = (Ret (internal_error false (Exception "OSError" "clock unavailable")),
     1000%Z,
     [(ValidateToken (JStr "expired-token-X"), Ret (JBool false));
      (GetTimestamp, Raise (Exception "OSError" "clock unavailable"))]).
Proof.
  apply (rejected_token_needs_clock Fixture.client stopped_clock false
           rejected_check [("token", JStr "expired-token-X")]
           1000%Z (JBool false) 1000%Z
           (Exception "OSError" "clock unavailable") 1000%Z);
    reflexivity.
Defined.

(** The first two of the five urls, alone and followed by the other three. *)
Lemma prefix_scenario :
  exists out w' tr w1 t1 t2,
    batch_loop Fixture.client Fixture.decoder (JStr Fixture.live_token)
      Fixture.three_of_five [] 1000%Z = (Ret out, w', tr)
    /\ batch_loop Fixture.client Fixture.decoder (JStr Fixture.live_token)
         (firstn 2 Fixture.three_of_five) [] 1000%Z
       = (Ret (firstn 2 out), w1, t1)
    /\ tr = t1 ++ t2.
Proof.
  edestruct (batch_prefix_stable Fixture.client Fixture.decoder
               (JStr Fixture.live_token)
               (firstn 2 Fixture.three_of_five) (skipn 2 Fixture.three_of_five)
               1000%Z)
    as (w1 & t1 & t2 & Hxs & Htr).
  - reflexivity.
  - do 6 eexists. split; [reflexivity|]. split; [exact Hxs|exact Htr].
Defined.

(** Three urls, the second with a number for [encrypted_url]: the decoder
    of the test double raises on it, the request is answered 200 and the
    second report carries the text of the exception. *)
Lemma error_text_scenario :
  exists resp w' tr results,
    batch_decode_urls Fixture.client Fixture.decoder false
      (Fixture.batch raising_entry) 1000%Z = (Ret resp, w', tr)
    /\ status resp = 200%Z
    /\ field "results" (body resp) = Some (JList results)
    /\ nth_error results 1
       = Some (error_report (JInt 2)
                 (Exception "TypeError" "a bytes-like object is required")).
Proof.
  edestruct (batch_item_error_text Fixture.client Fixture.decoder
               (Fixture.batch raising_entry) 1000%Z)
    as (results & i & fields & Hres & Hi & Hurl & Hout).
  - reflexivity.
  - reflexivity.
  - do 3 right. left. reflexivity.
  - do 4 eexists. split; [reflexivity|]. split; [reflexivity|].
    split; [exact Hres|].
    destruct i as [|[|[|i]]]; cbn in Hi.
    4: destruct i; discriminate Hi.
    all: inversion Hi; subst; cbn in Hurl; try discriminate Hurl.
    exact Hout.
Defined.

(** An empty JSON object is answered as invalid JSON; a payload with a url
    and no token as a missing token. *)
Lemma rejection_codes_scenario :
  handle Fixture.client Fixture.decoder false ApiDecode (Fixture.post (JObj [])) 1000%Z
  = (Ret (with_status
            (jsonify [("error", JStr "Invalid JSON payload");
                      ("code", JStr "INVALID_JSON")]) 400),
     1000%Z, [])
  /\ handle Fixture.client Fixture.decoder false ApiDecode Fixture.no_token 1000%Z
     = (Ret (with_status
               (jsonify [("error", JStr "Token is required");
                         ("code", JStr "MISSING_TOKEN")]) 400),
        1000%Z, []).
Proof.
  destruct (payload_rejection_codes Fixture.client Fixture.decoder false
              ApiDecode (Fixture.post (JObj [])) 1000%Z) as [Hempty _];
    [discriminate|].
  destruct (payload_rejection_codes Fixture.client Fixture.decoder false
              ApiDecode Fixture.no_token 1000%Z) as [_ Htoken];
    [discriminate|].
  split.
  - apply (Hempty (JObj [])); reflexivity.
  - apply (Htoken [("encrypted_url", JStr "enc:https://cdn.example/v1.m3u8")]);
      [reflexivity | discriminate | reflexivity].
Defined.

Lemma simple_signed_scenario :
  exists resp w' tr v playable_url,
    decode_video_url_simple Fixture.client Fixture.decoder Fixture.simple 1000%Z
    = (Ret resp, w', tr)
    /\ truthy v = true
    /\ resp = jsonify [("status", JStr "ok");
                       ("success", JBool true);
                       ("url", playable_url)].
Proof.
  edestruct (simple_200_means_signed Fixture.client Fixture.decoder
               Fixture.simple 1000%Z)
    as (v & playable_url & _ & _ & _ & Hv & Hresp).
  - reflexivity.
  - reflexivity.
  - do 5 eexists. split; [reflexivity|]. split; [exact Hv|exact Hresp].
Defined.

Lemma batch_dicts_scenario :
  exists resp w' tr,
    batch_decode_urls Fixture.client Fixture.decoder false
      (Fixture.batch Fixture.three_of_five) 1000%Z = (Ret resp, w', tr)
    /\ status resp = 200%Z
    /\ forallb is_object (submitted (Fixture.batch Fixture.three_of_five)) = true.
Proof.
  edestruct (batch_200_means_all_dicts Fixture.client Fixture.decoder false
               (Fixture.batch Fixture.three_of_five) 1000%Z)
    as (_ & Hobj & _).
  - reflexivity.
  - reflexivity.
  - do 3 eexists. split; [reflexivity|]. split; [reflexivity|exact Hobj].
Defined.
